(** * UOP CarbonTrace: calibration, colour extraction and CSV export

    A shallow embedding of the computational core of
    [UOP_CarbonTrace.py] and [UOP_CarbonTrace_v2.py]: the methods
    [select_by_color] and [save_data] of [CarbonTraceWindow], together
    with the window state they read and write.

    Numbers.  Python floats are idealised as real numbers: there is no
    rounding, no overflow and no non-finite value.  The two operations of
    [save_data] that are partial on floats keep their exceptions:
    [math.log10] raises [ValueError] outside its domain, and a division
    by zero raises [ZeroDivisionError].  (On numpy scalars the same
    division continues with a non-finite value instead of raising; what is
    stated below about a zero pixel span is only that no warning is shown,
    which holds either way.)

    Limits.  What only arises on machine numbers or on the file system is
    outside the model: the overflow and underflow of [10 ** x], a text
    that [float] reads as a non-finite value, an integer colour component
    too large for a 64-bit array, and a failure of [open(path, 'w')].  [Exported path contents] says that the handler
    reached the write with these contents.

    Library functions.  The builtins [int], [float] and the formatting of
    a float inside an f-string are parameters of the development
    ([py_int], [py_float], [float_str]).  Closed examples instantiate
    them with the small decimal readers [dec_int] and [dec_float]. *)

From Stdlib Require Import Reals Lra Lia String Ascii Arith ZArith Bool.
From Stdlib Require Import DecimalString List Sorted.
Import ListNotations.

Local Open Scope R_scope.

(** ** Exceptions and results *)

Inductive exn : Type :=
| ValueError          (* float("abc"), math.log10(0.0) *)
| ZeroDivisionError   (* x / 0.0 *)
| TypeError.          (* 1.0 - None *)

Inductive result (A : Type) : Type :=
| Ok (a : A)
| Raise (e : exn).

Arguments Ok {A} a.
Arguments Raise {A} e.

Definition bind {A B : Type} (c : result A) (k : A -> result B) : result B :=
  match c with
  | Ok a => k a
  | Raise e => Raise e
  end.

Notation "x <- c ;; k" := (bind c (fun x => k))
  (at level 61, c at next level, right associativity).

Fixpoint mapM {A B : Type} (f : A -> result B) (l : list A) : result (list B) :=
  match l with
  | [] => Ok []
  | a :: t => b <- f a ;; bs <- mapM f t ;; Ok (b :: bs)
  end.

(** ** Float operations used by the program *)

Definition lt_b (x y : R) : bool := if Rlt_dec x y then true else false.

(** [math.log10(x)] *)
Definition log10 (x : R) : result R :=
  if Rlt_dec 0 x then Ok (ln x / ln 10) else Raise ValueError.

(** [10 ** x] *)
Definition pow10 (x : R) : R := Rpower 10 x.

(** [a / b] *)
Definition div (a b : R) : result R :=
  if Req_dec_T b 0 then Raise ZeroDivisionError else Ok (a / b).

(** An operand that may still be [None]. *)
Definition as_float (o : option R) : result R :=
  match o with
  | Some r => Ok r
  | None => Raise TypeError
  end.

(** ** Text *)

Definition nl : string := String "010"%char EmptyString.

Definition is_empty (s : string) : bool :=
  match s with
  | EmptyString => true
  | String _ _ => false
  end.

(** ["\n".join(l)] *)
Fixpoint join (sep : string) (l : list string) : string :=
  match l with
  | [] => EmptyString
  | [s] => s
  | s :: t => (s ++ sep ++ join sep t)%string
  end.

(** [str(n)] for a length. *)
Definition nat_str (n : nat) : string := NilEmpty.string_of_uint (Nat.to_uint n).

(** ** Window state *)

Record anchor : Type := mk_anchor {
  pixel : option R;
  val : option R;
  name : string
}.

(** [self.calibration]: a dict with the four keys, in this order. *)
Record calibration_t : Type := mk_calibration {
  x_min : anchor;
  x_max : anchor;
  y_min : anchor;
  y_max : anchor
}.

(** [self.calibration.items()] *)
Definition items (c : calibration_t) : list (string * anchor) :=
  [("x_min"%string, x_min c); ("x_max"%string, x_max c);
   ("y_min"%string, y_min c); ("y_max"%string, y_max c)].

Inductive scale : Type := linear | log.

Definition is_log (s : scale) : bool :=
  match s with
  | log => true
  | linear => false
  end.

(** A decoded raster: rows, columns, channels.  A colour image has three
    channels per pixel, or four with alpha. *)
Definition image : Type := list (list (list R)).

Record window : Type := mk_window {
  img : option image;
  calibration : calibration_t;
  data_points : list (R * R);
  x_scale_type : scale;
  y_scale_type : scale;
  rad_x_log : bool;          (* self.rad_x_log.isChecked() *)
  rad_y_log : bool;
  in_xmin : string;          (* self.in_xmin.text() *)
  in_xmax : string;
  in_ymin : string;
  in_ymax : string;
  in_r : string;
  in_g : string;
  in_b : string;
  in_tol : string;
  lbl_hint : string
}.

Definition set_calibration (c : calibration_t) (w : window) : window :=
  mk_window (img w) c (data_points w) (x_scale_type w) (y_scale_type w)
    (rad_x_log w) (rad_y_log w) (in_xmin w) (in_xmax w) (in_ymin w) (in_ymax w)
    (in_r w) (in_g w) (in_b w) (in_tol w) (lbl_hint w).

Definition set_data_points (d : list (R * R)) (w : window) : window :=
  mk_window (img w) (calibration w) d (x_scale_type w) (y_scale_type w)
    (rad_x_log w) (rad_y_log w) (in_xmin w) (in_xmax w) (in_ymin w) (in_ymax w)
    (in_r w) (in_g w) (in_b w) (in_tol w) (lbl_hint w).

Definition set_hint (h : string) (w : window) : window :=
  mk_window (img w) (calibration w) (data_points w) (x_scale_type w) (y_scale_type w)
    (rad_x_log w) (rad_y_log w) (in_xmin w) (in_xmax w) (in_ymin w) (in_ymax w)
    (in_r w) (in_g w) (in_b w) (in_tol w) h.

Definition with_val (v : R) (a : anchor) : anchor :=
  mk_anchor (pixel a) (Some v) (name a).

(** [cal['x_min']['val'] = v] and its three siblings. *)
Definition set_x_min_val (v : R) (w : window) : window :=
  let c := calibration w in
  set_calibration (mk_calibration (with_val v (x_min c)) (x_max c) (y_min c) (y_max c)) w.

Definition set_x_max_val (v : R) (w : window) : window :=
  let c := calibration w in
  set_calibration (mk_calibration (x_min c) (with_val v (x_max c)) (y_min c) (y_max c)) w.

Definition set_y_min_val (v : R) (w : window) : window :=
  let c := calibration w in
  set_calibration (mk_calibration (x_min c) (x_max c) (with_val v (y_min c)) (y_max c)) w.

Definition set_y_max_val (v : R) (w : window) : window :=
  let c := calibration w in
  set_calibration (mk_calibration (x_min c) (x_max c) (y_min c) (with_val v (y_max c))) w.

(** What one run of a handler did besides updating the window. *)
Inductive outcome : Type :=
| Warned (title msg : string)          (* QMessageBox.warning(self, title, msg); return *)
| Uncaught (e : exn)                   (* an exception that leaves the handler *)
| Cancelled                            (* the file dialog returned no path *)
| Exported (path contents : string).   (* the handler writes [contents] to [path] *)

(** ** Array helpers (numpy) *)

(** [np.linalg.norm(v)] along the channel axis. *)
Definition norm (v : list R) : R :=
  sqrt (fold_right Rplus 0 (map (fun d => d * d) v)).

(** [a - b] on two channel vectors. *)
Definition sub_vec (a b : list R) : list R :=
  map (fun p => fst p - snd p) (combine a b).

(** [np.where(row)] for one row [y], columns counted from [x]. *)
Fixpoint where_row (y x : nat) (row : list bool) : list (nat * nat) :=
  match row with
  | [] => []
  | b :: r => (if b then [(y, x)] else []) ++ where_row y (S x) r
  end.

(** [np.where(mask)]: the (row, column) indices of the true cells, row by row. *)
Fixpoint where_from (y : nat) (mask : list (list bool)) : list (nat * nat) :=
  match mask with
  | [] => []
  | row :: rest => where_row y 0 row ++ where_from (S y) rest
  end.

Definition np_where (mask : list (list bool)) : list (nat * nat) := where_from 0 mask.

Fixpoint insert_unique (x : nat) (l : list nat) : list nat :=
  match l with
  | [] => [x]
  | y :: t =>
      match Nat.compare x y with
      | Lt => x :: l
      | Eq => l
      | Gt => y :: insert_unique x t
      end
  end.

(** [np.unique(l)]: the distinct values, ascending. *)
Definition np_unique (l : list nat) : list nat := fold_right insert_unique [] l.

(** [a[m]] for a boolean mask [m]. *)
Fixpoint mask_select {A : Type} (a : list A) (m : list bool) : list A :=
  match a, m with
  | x :: a', b :: m' => if b then x :: mask_select a' m' else mask_select a' m'
  | _, _ => []
  end.

Definition sum_nat (l : list nat) : R := fold_right (fun y s => INR y + s) 0 l.

(** [np.mean(l)] of an integer array. *)
Definition np_mean (l : list nat) : R := sum_nat l / INR (length l).

(** The candidate points of [select_by_color], from the match mask:
    lines [np.where] to the end of the [for ux in unique_x] loop. *)
Definition collapse (mask : list (list bool)) : list (R * R) :=
  let idx := np_where mask in
  let y_idx := map fst idx in
  let x_idx := map snd idx in
  let unique_x := np_unique x_idx in
  map (fun ux => (INR ux, np_mean (mask_select y_idx (map (Nat.eqb ux) x_idx))))
      unique_x.

(** [dist < tol] for the image, with [dist] the distance of the first three
    channels of every pixel to [target]. *)
Definition match_mask (im : image) (target : list R) (tol : R) : list (list bool) :=
  map (map (fun px => lt_b (norm (sub_vec (firstn 3 px) target)) tol)) im.

Section Program.

(** The builtins [int(s)] and [float(s)] ([None]: [ValueError]) and the
    default formatting of a float. *)
Variable py_int : string -> option Z.
Variable py_float : string -> option R.
Variable float_str : R -> string.

(** The [try] block of [select_by_color]. *)
Definition color_inputs (w : window) : result (Z * Z * Z * R) :=
  match py_int (in_r w), py_int (in_g w), py_int (in_b w) with
  | Some r, Some g, Some b =>
      match py_float (in_tol w) with
      | Some t => Ok (r, g, b, t / 100)
      | None => Raise ValueError
      end
  | _, _, _ => Raise ValueError
  end.

Definition new_points (im : image) (r g b : Z) (tol : R) : list (R * R) :=
  let target := [IZR r / 255; IZR g / 255; IZR b / 255] in
  collapse (match_mask im target tol).

Definition select_by_color (w : window) : window :=
  match img w with
  | None => w
  | Some im =>
      match color_inputs w with
      | Raise _ => set_hint "Invalid color inputs." w
      | Ok (r, g, b, tol) =>
          let pts := new_points im r g b tol in
          set_hint ("Auto-traced " ++ nat_str (length pts) ++ " points.")%string
                   (set_data_points (data_points w ++ pts) w)
      end
  end.

(** *** [save_data] *)

Definition msg_all_values : string := "Please enter values for all 4 axes limits.".
Definition msg_valid_numbers : string := "Axes values must be valid numbers.".
Definition msg_no_points : string := "No trace data points found.".

(** The [try] block: the four value texts are checked for emptiness, then
    parsed and stored one after the other.  [Some o]: the handler returned
    with the warning [o]. *)
Definition read_values (w : window) : window * option outcome :=
  if is_empty (in_xmin w) || is_empty (in_xmax w)
     || is_empty (in_ymin w) || is_empty (in_ymax w)
  then (w, Some (Warned "Input Error" msg_all_values))
  else
    let invalid := Some (Warned "Input Error" msg_valid_numbers) in
    match py_float (in_xmin w) with
    | None => (w, invalid)
    | Some v1 =>
      let w1 := set_x_min_val v1 w in
      match py_float (in_xmax w1) with
      | None => (w1, invalid)
      | Some v2 =>
        let w2 := set_x_max_val v2 w1 in
        match py_float (in_ymin w2) with
        | None => (w2, invalid)
        | Some v3 =>
          let w3 := set_y_min_val v3 w2 in
          match py_float (in_ymax w3) with
          | None => (w3, invalid)
          | Some v4 => (set_y_max_val v4 w3, None)
          end
        end
      end
    end.

(** [if is_log: v1, v2 = log10(v1), log10(v2)] *)
Definition scale_values (is_log : bool) (v1 v2 : option R)
  : result (option R * option R) :=
  if is_log then
    a <- (x <- as_float v1 ;; log10 x) ;;
    b <- (x <- as_float v2 ;; log10 x) ;;
    Ok (Some a, Some b)
  else Ok (v1, v2).

(** [v1 + (p - p1) * (v2 - v1) / (p2 - p1)] *)
Definition interpolate (v1 v2 p1 p2 : option R) (p : R) : result R :=
  a <- as_float p1 ;;
  hi <- as_float v2 ;;
  lo <- as_float v1 ;;
  b <- as_float p2 ;;
  q <- div ((p - a) * (hi - lo)) (b - a) ;;
  Ok (lo + q).

(** The body of [for px, py in self.data_points]. *)
Definition to_real (is_x_log is_y_log : bool)
    (x1_val x2_val x1_px x2_px y1_val y2_val y1_px y2_px : option R)
    (pt : R * R) : result (R * R) :=
  let (px, py) := pt in
  x_res <- interpolate x1_val x2_val x1_px x2_px px ;;
  y_res <- interpolate y1_val y2_val y1_px y2_px py ;;
  Ok (if is_x_log then pow10 x_res else x_res,
      if is_y_log then pow10 y_res else y_res).

(** From [real_data = []] to the end of the loop. *)
Definition reconstruct (is_x_log is_y_log : bool) (w : window)
  : result (list (R * R)) :=
  let cal := calibration w in
  let x1_px := pixel (x_min cal) in
  let x2_px := pixel (x_max cal) in
  let y1_px := pixel (y_min cal) in
  let y2_px := pixel (y_max cal) in
  xv <- scale_values is_x_log (val (x_min cal)) (val (x_max cal)) ;;
  yv <- scale_values is_y_log (val (y_min cal)) (val (y_max cal)) ;;
  mapM (to_real is_x_log is_y_log (fst xv) (snd xv) x1_px x2_px
                (fst yv) (snd yv) y1_px y2_px)
       (data_points w).

(** [f"{x},{y}\n"] *)
Definition csv_row (p : R * R) : string :=
  (float_str (fst p) ++ "," ++ float_str (snd p) ++ nl)%string.

(** Everything written to the file. *)
Definition csv_text (real_data : list (R * R)) : string :=
  (("x,y" ++ nl) ++ fold_right append EmptyString (map csv_row real_data))%string.

(** [save_data] after the check of the pixel locations; the two files
    agree on it up to where the scale kind is read from.  [path] is the
    answer of the file dialog. *)
Definition export (is_x_log is_y_log : bool) (w : window) (path : string)
  : window * outcome :=
  match data_points w with
  | [] => (w, Warned "Data Error" msg_no_points)
  | _ :: _ =>
    match read_values w with
    | (w1, Some o) => (w1, o)
    | (w1, None) =>
      match reconstruct is_x_log is_y_log w1 with
      | Raise e => (w1, Uncaught e)
      | Ok real_data =>
        if is_empty path then (w1, Cancelled)
        else (set_hint ("Export successful: " ++ path)%string w1,
              Exported path (csv_text real_data))
      end
    end
  end.

(** [UOP_CarbonTrace_v2.py]: the names of all anchors without a pixel. *)
Definition missing_cal (w : window) : list string :=
  map (fun kd => name (snd kd))
      (filter (fun kd => match pixel (snd kd) with None => true | Some _ => false end)
              (items (calibration w))).

Definition msg_missing (missing : list string) : string :=
  ("You forgot to set the location for:" ++ nl
   ++ join nl (map (fun m => "- " ++ m) missing))%string.

Definition save_data_v2 (w : window) (path : string) : window * outcome :=
  match missing_cal w with
  | _ :: _ => (w, Warned "Calibration Missing" (msg_missing (missing_cal w)))
  | [] => export (is_log (x_scale_type w)) (is_log (y_scale_type w)) w path
  end.

(** [UOP_CarbonTrace.py]: the loop returns at the first anchor without a
    pixel and reports its key. *)
Fixpoint first_missing (l : list (string * anchor)) : option string :=
  match l with
  | [] => None
  | (key, data) :: t =>
      match pixel data with
      | None => Some key
      | Some _ => first_missing t
      end
  end.

Definition save_data_v1 (w : window) (path : string) : window * outcome :=
  match first_missing (items (calibration w)) with
  | Some key =>
      (w, Warned "Calibration Error" ("Missing " ++ key ++ " location on the graph.")%string)
  | None => export (rad_x_log w) (rad_y_log w) w path
  end.

End Program.

(** ** Decimal readers

    [dec_int] and [dec_float] read a sign, decimal digits and, for
    [dec_float], a fraction.  They stand for [int] and [float] in the closed
    examples: on the texts used there (["0"], ["300"], ["abc"], the empty
    text, ...) they return what the builtins return. *)

Definition digit (c : ascii) : option Z :=
  let n := nat_of_ascii c in
  if (48 <=? n)%nat && (n <=? 57)%nat then Some (Z.of_nat (n - 48)) else None.

Fixpoint digits (acc : Z) (s : string) : option Z :=
  match s with
  | EmptyString => Some acc
  | String c t =>
      match digit c with
      | Some d => digits (10 * acc + d) t
      | None => None
      end
  end.

Definition dec_nat (s : string) : option Z :=
  if is_empty s then None else digits 0 s.

Definition signed {A : Type} (neg : A -> A) (read : string -> option A) (s : string)
  : option A :=
  match s with
  | String "-" t => option_map neg (read t)
  | String "+" t => read t
  | _ => read s
  end.

Definition dec_int : string -> option Z := signed Z.opp dec_nat.

Fixpoint split_dot (s : string) : string * option string :=
  match s with
  | EmptyString => (EmptyString, None)
  | String c t =>
      if Ascii.eqb c "." then (EmptyString, Some t)
      else let (a, b) := split_dot t in (String c a, b)
  end.

Definition dec_unsigned (s : string) : option R :=
  match split_dot s with
  | (i, None) => option_map IZR (dec_nat i)
  | (i, Some f) =>
      if is_empty i && is_empty f then None
      else
        match digits 0 i, digits 0 f with
        | Some a, Some b => Some (IZR a + IZR b / 10 ^ String.length f)
        | _, _ => None
        end
  end.

Definition dec_float : string -> option R := signed Ropp dec_unsigned.

(** A formatting of floats for the closed examples, which never look
    inside the rows: every number is written as [?]. *)
Definition opaque_str (_ : R) : string := "?".

(** A formatting of floats that writes 25 as Python does and leaves the
    other numbers unreadable. *)
Definition sample_str (x : R) : string :=
  if Req_dec_T x 25 then "25.0"%string else "?"%string.

(** The integers that [np.array] stores as 64-bit integers. *)
Definition fits_int64 (z : Z) : Prop :=
  (- 9223372036854775808 <= z < 9223372036854775808)%Z.

(** ** Notions used in the statements *)

(** Base-10 logarithm of a positive real. *)
Definition lg (x : R) : R := ln x / ln 10.

(** The pixel-to-value transform in the words of the specification:
    affine for a linear axis, affine on the base-10 logarithms of the two
    values and then exponentiated for a logarithmic one. *)
Definition toRealValue (k : scale) (pMin vMin pMax vMax p : R) : R :=
  match k with
  | linear => vMin + (p - pMin) * (vMax - vMin) / (pMax - pMin)
  | log => Rpower 10 (lg vMin + (p - pMin) * (lg vMax - lg vMin) / (pMax - pMin))
  end.

Definition kind (checked : bool) : scale := if checked then log else linear.

(** The eight numbers of a calibration: pixel and value of each anchor. *)
Record readings : Type := mk_readings {
  xp1 : R; xv1 : R; xp2 : R; xv2 : R;
  yp1 : R; yv1 : R; yp2 : R; yv2 : R
}.

(** [w] has the four pixel locations of [c], and its four value texts are
    entered and read as the values of [c]. *)
Definition calibrated (py_float : string -> option R) (w : window) (c : readings) : Prop :=
  (pixel (x_min (calibration w)) = Some (xp1 c)
   /\ pixel (x_max (calibration w)) = Some (xp2 c)
   /\ pixel (y_min (calibration w)) = Some (yp1 c)
   /\ pixel (y_max (calibration w)) = Some (yp2 c))
  /\ (is_empty (in_xmin w) = false /\ is_empty (in_xmax w) = false
      /\ is_empty (in_ymin w) = false /\ is_empty (in_ymax w) = false)
  /\ (py_float (in_xmin w) = Some (xv1 c) /\ py_float (in_xmax w) = Some (xv2 c)
      /\ py_float (in_ymin w) = Some (yv1 c) /\ py_float (in_ymax w) = Some (yv2 c)).

(** The window after the four values of [c] have been stored. *)
Definition stored (c : readings) (w : window) : window :=
  set_y_max_val (yv2 c) (set_y_min_val (yv1 c)
    (set_x_max_val (xv2 c) (set_x_min_val (xv1 c) w))).

(** A traced point in data space. *)
Definition real_point (kx ky : scale) (c : readings) (pt : R * R) : R * R :=
  (toRealValue kx (xp1 c) (xv1 c) (xp2 c) (xv2 c) (fst pt),
   toRealValue ky (yp1 c) (yv1 c) (yp2 c) (yv2 c) (snd pt)).

(** A logarithmic axis needs two positive values. *)
Definition log_ok (k : scale) (v1 v2 : R) : Prop :=
  k = log -> 0 < v1 /\ 0 < v2.

(** The scale kinds of the two axes: the attributes read by
    [UOP_CarbonTrace_v2.py] and the radio buttons read by
    [UOP_CarbonTrace.py]. *)
Definition scales (w : window) (kx ky : scale) : Prop :=
  (x_scale_type w = kx /\ y_scale_type w = ky)
  /\ (rad_x_log w = is_log kx /\ rad_y_log w = is_log ky).

(** The straight line through [(p1, v1)] and [(p2, v2)]. *)
Definition line (p1 v1 p2 v2 p : R) : R := v1 + (p - p1) * (v2 - v1) / (p2 - p1).

(** The operation ended with a message box. *)
Definition reported (o : outcome) : bool :=
  match o with
  | Warned _ _ => true
  | _ => false
  end.

(** The operation did not run to its end. *)
Definition failed (o : outcome) : bool :=
  match o with
  | Warned _ _ | Uncaught _ => true
  | Cancelled | Exported _ _ => false
  end.

Definition pixels (w : window) : list (option R) :=
  map (fun kd => pixel (snd kd)) (items (calibration w)).

Definition vals (w : window) : list (option R) :=
  map (fun kd => val (snd kd)) (items (calibration w)).

Definition value_texts (w : window) : list string :=
  [in_xmin w; in_xmax w; in_ymin w; in_ymax w].

(** The values of [w'] are those of [w] with the first [k] of them
    overwritten by what [py_float] read from the first [k] value texts. *)
Definition values_stored (py_float : string -> option R) (k : nat) (w w' : window)
  : Prop :=
  vals w' = firstn k (map py_float (value_texts w)) ++ skipn k (vals w)
  /\ Forall (fun o => o <> None) (firstn k (map py_float (value_texts w))).

(** The exported file in the words of the specification: the header
    line, then one line [<x>,<y>] per row, every line ended by a newline. *)
Definition csv_lines (float_str : R -> string) (rows : list (R * R)) : list string :=
  "x,y"%string :: map (fun r => (float_str (fst r) ++ "," ++ float_str (snd r))%string) rows.

Definition unlines (l : list string) : string :=
  fold_right (fun s rest => (s ++ nl ++ rest)%string) EmptyString l.

(** One straight line through two points. *)
Definition affine (f : R -> R) : Prop := exists a b, forall p, f p = a * p + b.

(** The cell of a mask at row [y], column [x]; [false] outside. *)
Definition mask_at (mask : list (list bool)) (y x : nat) : bool :=
  nth x (nth y mask []) false.

(** The rows of column [x] that match, ascending. *)
Definition rows_in_column (mask : list (list bool)) (x : nat) : list nat :=
  filter (fun y => mask_at mask y x) (seq 0 (length mask)).

(** ** Example windows *)

(** [self.calibration] with the names given in [__init__]. *)
Definition named_calibration (p1 p2 p3 p4 : option R) : calibration_t :=
  mk_calibration (mk_anchor p1 None "X Min") (mk_anchor p2 None "X Max")
                 (mk_anchor p3 None "Y Min") (mk_anchor p4 None "Y Max").

Definition session (im : option image) (c : calibration_t) (pts : list (R * R))
    (kx ky : scale) (t1 t2 t3 t4 : string) (r g b tol : string) : window :=
  mk_window im c pts kx ky (is_log kx) (is_log ky) t1 t2 t3 t4 r g b tol
    "Ready. Load a graph to begin.".

(** The window as [__init__] leaves it. *)
Definition w_fresh : window :=
  session None (named_calibration None None None None) [] linear linear
    "" "" "" "" "0" "0" "0" "10".

(** Both axes from pixel 0 to pixel 100 for the values 0 to 50; one point. *)
Definition w_linear : window :=
  session None (named_calibration (Some 0) (Some 100) (Some 0) (Some 100))
    [(50, 50)] linear linear "0" "50" "0" "50" "0" "0" "0" "10".

Definition c_linear : readings := mk_readings 0 0 100 50 0 0 100 50.

(** A logarithmic x axis from pixel 0 to pixel 3 for the values 1 to 1000. *)
Definition w_log : window :=
  session None (named_calibration (Some 0) (Some 3) (Some 0) (Some 100))
    [(1, 50); (2, 50)] log linear "1" "1000" "0" "50" "0" "0" "0" "10".

Definition c_log : readings := mk_readings 0 1 3 1000 0 0 100 50.

(** [w_log] with the value 0 for X Min. *)
Definition w_log_zero : window :=
  session None (named_calibration (Some 0) (Some 3) (Some 0) (Some 100))
    [(1, 50); (2, 50)] log linear "0" "1000" "0" "50" "0" "0" "0" "10".

Definition c_log_zero : readings := mk_readings 0 0 3 1000 0 0 100 50.

(** [w_linear] with X Min and X Max clicked on the same column. *)
Definition w_zero_span : window :=
  session None (named_calibration (Some 5) (Some 5) (Some 0) (Some 100))
    [(50, 50)] linear linear "0" "50" "0" "50" "0" "0" "0" "10".

Definition c_zero_span : readings := mk_readings 5 0 5 50 0 0 100 50.

(** [w_linear] where no value was entered for Y Max. *)
Definition w_no_ymax_value : window :=
  session None (named_calibration (Some 0) (Some 100) (Some 0) (Some 100))
    [(50, 50)] linear linear "0" "50" "0" "" "0" "0" "0" "10".

(** [w_linear] where Y Max was never clicked. *)
Definition w_no_ymax_pixel : window :=
  session None (named_calibration (Some 0) (Some 100) (Some 0) None)
    [(50, 50)] linear linear "0" "50" "0" "50" "0" "0" "0" "10".

(** [w_linear] where neither X Min nor X Max was clicked. *)
Definition w_no_x_pixels : window :=
  session None (named_calibration None None (Some 0) (Some 100))
    [(50, 50)] linear linear "0" "50" "0" "50" "0" "0" "0" "10".

(** [w_linear] with a text for X Max that is no number. *)
Definition w_bad_xmax : window :=
  session None (named_calibration (Some 0) (Some 100) (Some 0) (Some 100))
    [(50, 50)] linear linear "1" "abc" "0" "50" "0" "0" "0" "10".

(** Calibrated, no traced point, no value entered. *)
Definition w_no_points : window :=
  session None (named_calibration (Some 0) (Some 100) (Some 0) (Some 100))
    [] linear linear "" "abc" "" "" "0" "0" "0" "10".

Definition black : list R := [0; 0; 0].
Definition white : list R := [1; 1; 1].

(** Three rows of three pixels; black at rows 0 and 2 of column 0 and at
    row 1 of column 1. *)
Definition img3 : image :=
  [[black; white; white];
   [white; black; white];
   [black; white; white]].


Definition w_color (im : image) (r g b tol : string) : window :=
  session (Some im) (named_calibration None None None None) [] linear linear
    "" "" "" "" r g b tol.
(** ** The interactive handlers

    The remaining attributes of [CarbonTraceWindow] that the handlers read
    or write, around the [window] above.  What the handlers draw on the
    canvas is not part of the state. *)

Inductive cursor_shape : Type := ArrowCursor | CrossCursor.

(** The text of a status label: the cross it starts with or the tick set
    after a click. *)
Inductive stat : Type := cross_mark | check_mark.

Record gui : Type := mk_gui {
  win : window;
  current_state : option string;
  btn_pick : bool;           (* self.btn_pick.isChecked() *)
  rad_x_lin : bool;          (* self.rad_x_lin.isChecked() *)
  rad_y_lin : bool;
  lbl_xmin_stat : stat;
  lbl_xmax_stat : stat;
  lbl_ymin_stat : stat;
  lbl_ymax_stat : stat;
  cursor : cursor_shape
}.

Definition set_win (w : window) (g : gui) : gui :=
  mk_gui w (current_state g) (btn_pick g) (rad_x_lin g) (rad_y_lin g)
    (lbl_xmin_stat g) (lbl_xmax_stat g) (lbl_ymin_stat g) (lbl_ymax_stat g) (cursor g).

Definition set_current_state (s : option string) (g : gui) : gui :=
  mk_gui (win g) s (btn_pick g) (rad_x_lin g) (rad_y_lin g)
    (lbl_xmin_stat g) (lbl_xmax_stat g) (lbl_ymin_stat g) (lbl_ymax_stat g) (cursor g).

Definition set_cursor (c : cursor_shape) (g : gui) : gui :=
  mk_gui (win g) (current_state g) (btn_pick g) (rad_x_lin g) (rad_y_lin g)
    (lbl_xmin_stat g) (lbl_xmax_stat g) (lbl_ymin_stat g) (lbl_ymax_stat g) c.

Definition set_img (im : image) (w : window) : window :=
  mk_window (Some im) (calibration w) (data_points w) (x_scale_type w) (y_scale_type w)
    (rad_x_log w) (rad_y_log w) (in_xmin w) (in_xmax w) (in_ymin w) (in_ymax w)
    (in_r w) (in_g w) (in_b w) (in_tol w) (lbl_hint w).

Definition with_x_scale (s : scale) (w : window) : window :=
  mk_window (img w) (calibration w) (data_points w) s (y_scale_type w)
    (rad_x_log w) (rad_y_log w) (in_xmin w) (in_xmax w) (in_ymin w) (in_ymax w)
    (in_r w) (in_g w) (in_b w) (in_tol w) (lbl_hint w).

Definition with_y_scale (s : scale) (w : window) : window :=
  mk_window (img w) (calibration w) (data_points w) (x_scale_type w) s
    (rad_x_log w) (rad_y_log w) (in_xmin w) (in_xmax w) (in_ymin w) (in_ymax w)
    (in_r w) (in_g w) (in_b w) (in_tol w) (lbl_hint w).

(** [key in self.calibration] *)
Definition has_key (c : calibration_t) (key : string) : bool :=
  existsb (String.eqb key) (map fst (items c)).

Definition with_pixel (p : R) (a : anchor) : anchor :=
  mk_anchor (Some p) (val a) (name a).

(** [self.calibration[key]['pixel'] = p] for a key of the dict. *)
Definition set_pixel (key : string) (p : R) (c : calibration_t) : calibration_t :=
  if String.eqb key "x_min" then
    mk_calibration (with_pixel p (x_min c)) (x_max c) (y_min c) (y_max c)
  else if String.eqb key "x_max" then
    mk_calibration (x_min c) (with_pixel p (x_max c)) (y_min c) (y_max c)
  else if String.eqb key "y_min" then
    mk_calibration (x_min c) (x_max c) (with_pixel p (y_min c)) (y_max c)
  else if String.eqb key "y_max" then
    mk_calibration (x_min c) (x_max c) (y_min c) (with_pixel p (y_max c))
  else c.

(** [getattr(self, f"lbl_{key.replace('_','')}_stat").setText(tick)] for a
    key of the dict. *)
Definition set_stat (key : string) (g : gui) : gui :=
  if String.eqb key "x_min" then
    mk_gui (win g) (current_state g) (btn_pick g) (rad_x_lin g) (rad_y_lin g)
      check_mark (lbl_xmax_stat g) (lbl_ymin_stat g) (lbl_ymax_stat g) (cursor g)
  else if String.eqb key "x_max" then
    mk_gui (win g) (current_state g) (btn_pick g) (rad_x_lin g) (rad_y_lin g)
      (lbl_xmin_stat g) check_mark (lbl_ymin_stat g) (lbl_ymax_stat g) (cursor g)
  else if String.eqb key "y_min" then
    mk_gui (win g) (current_state g) (btn_pick g) (rad_x_lin g) (rad_y_lin g)
      (lbl_xmin_stat g) (lbl_xmax_stat g) check_mark (lbl_ymax_stat g) (cursor g)
  else if String.eqb key "y_max" then
    mk_gui (win g) (current_state g) (btn_pick g) (rad_x_lin g) (rad_y_lin g)
      (lbl_xmin_stat g) (lbl_xmax_stat g) (lbl_ymin_stat g) check_mark (cursor g)
  else g.

(** A [button_press_event]: whether it lies in the axes of the canvas, its
    data coordinates and its button (1 left, 3 right). *)
Record mouse_event : Type := mk_event {
  inaxes : bool;
  xdata : R;
  ydata : R;
  button : nat
}.

(** [filename]: the answer of the file dialog; [decoded]: what
    [plt.imread(filename)] returns. *)
Definition load_image (g : gui) (filename : string) (decoded : image) : gui :=
  if is_empty filename then g
  else set_win (set_hint "Graph loaded. Please calibrate axes." (set_img decoded (win g))) g.

Definition start_calibration (g : gui) (key : string) : gui :=
  match img (win g) with
  | None => set_win (set_hint "Please load an image first." (win g)) g
  | Some _ =>
      set_cursor ArrowCursor
        (set_win (set_hint ("Click the location for " ++ key ++ ".")%string (win g))
           (set_current_state (Some key) g))
  end.

Definition toggle_picking (g : gui) : gui :=
  if btn_pick g then
    set_cursor CrossCursor
      (set_win (set_hint "Click to trace points. Right-click to undo." (win g))
         (set_current_state (Some "picking_points"%string) g))
  else
    set_cursor ArrowCursor
      (set_win (set_hint "Tracing paused." (win g)) (set_current_state None g)).

Definition on_canvas_click (g : gui) (event : mouse_event) : gui :=
  if negb (inaxes event) then g
  else
    match current_state g with
    | None => g
    | Some key =>
      if has_key (calibration (win g)) key then
        let p := if prefix "x" key then xdata event else ydata event in
        let w1 := set_calibration (set_pixel key p (calibration (win g))) (win g) in
        let w2 := set_hint (key ++ " set. Input the value on the left.")%string w1 in
        set_cursor ArrowCursor (set_current_state None (set_win w2 (set_stat key g)))
      else if String.eqb key "picking_points" then
        if (button event =? 1)%nat then
          set_cursor CrossCursor
            (set_win (set_data_points
                        (data_points (win g) ++ [(xdata event, ydata event)]) (win g)) g)
        else if (button event =? 3)%nat then
          match data_points (win g) with
          | [] => g
          | _ :: _ =>
              set_cursor CrossCursor
                (set_win (set_data_points (removelast (data_points (win g))) (win g)) g)
          end
        else g
      else g
    end.

Definition clear_points (g : gui) : gui :=
  set_win (set_data_points [] (win g)) g.

(** [UOP_CarbonTrace_v2.py] only. *)
Definition set_x_scale_type (g : gui) : gui :=
  if rad_x_lin g then set_win (with_x_scale linear (win g)) g
  else if rad_x_log (win g) then set_win (with_x_scale log (win g)) g
  else g.

Definition set_y_scale_type (g : gui) : gui :=
  if rad_y_lin g then set_win (with_y_scale linear (win g)) g
  else if rad_y_log (win g) then set_win (with_y_scale log (win g)) g
  else g.

(** ** Notions used in the statements about the handlers *)

(** One calibration action: the button, then a click on the canvas. *)
Definition calibrate (g : gui) (step : string * mouse_event) : gui :=
  on_canvas_click (start_calibration g (fst step)) (snd step).

(** The anchor stored under a key of the dict. *)
Definition anchor_of (c : calibration_t) (key : string) : option anchor :=
  if String.eqb key "x_min" then Some (x_min c)
  else if String.eqb key "x_max" then Some (x_max c)
  else if String.eqb key "y_min" then Some (y_min c)
  else if String.eqb key "y_max" then Some (y_max c)
  else None.

(** The pixel location under a key of the dict has been set. *)
Definition is_set (c : calibration_t) (key : string) : bool :=
  match anchor_of c key with
  | Some a => match pixel a with Some _ => true | None => false end
  | None => false
  end.

(** The coordinate a calibration click stores under [key]. *)
Definition clicked (key : string) (event : mouse_event) : R :=
  if prefix "x" key then xdata event else ydata event.

(** What [save_data] reads from a window. *)
Definition export_inputs (w : window)
  : list (option R) * list string * list (R * R) * list string
    * (scale * scale) * (bool * bool) :=
  (pixels w, map (fun kd => name (snd kd)) (items (calibration w)),
   data_points w, value_texts w,
   (x_scale_type w, y_scale_type w), (rad_x_log w, rad_y_log w)).

(** ** Example sessions of the handlers *)

Definition g_of (w : window) (s : option string) (pick : bool) : gui :=
  mk_gui w s pick (negb (rad_x_log w)) (negb (rad_y_log w))
    cross_mark cross_mark cross_mark cross_mark ArrowCursor.

Definition left_click (x y : R) : mouse_event := mk_event true x y 1.
Definition right_click (x y : R) : mouse_event := mk_event true x y 3.
(** * Properties *)

Example dec_int_300 : dec_int "300" = Some 300%Z.
Proof. reflexivity. Qed.

Example dec_int_abc : dec_int "abc" = None.
Proof. reflexivity. Qed.

Example dec_float_50 : dec_float "50" = Some 50.
Proof. reflexivity. Qed.

Example dec_float_abc : dec_float "abc" = None.
Proof. reflexivity. Qed.

Example dec_float_neg : dec_float "-5" = Some (- 5).
Proof. reflexivity. Qed.

(** ** Float operations *)

Lemma lt_b_true (x y : R) : lt_b x y = true <-> x < y.
Proof.
  unfold lt_b. destruct (Rlt_dec x y) as [H | H]; split; intro K;
    try reflexivity; try assumption; try discriminate; contradiction.
Qed.

Lemma lt_b_false (x y : R) : lt_b x y = false <-> y <= x.
Proof.
  unfold lt_b. destruct (Rlt_dec x y) as [H | H]; split; intro K;
    try reflexivity; try discriminate; lra.
Qed.

Lemma div_ok (a b : R) : b <> 0 -> div a b = Ok (a / b).
Proof.
  intro H. unfold div. destruct (Req_dec_T b 0) as [E | E]; [contradiction | reflexivity].
Qed.

Lemma div_zero (a b : R) : b = 0 -> div a b = Raise ZeroDivisionError.
Proof.
  intro H. unfold div. destruct (Req_dec_T b 0) as [E | E]; [reflexivity | contradiction].
Qed.

Lemma log10_ok (x : R) : 0 < x -> log10 x = Ok (lg x).
Proof.
  intro H. unfold log10, lg. destruct (Rlt_dec 0 x); [reflexivity | contradiction].
Qed.

Lemma log10_domain (x : R) : x <= 0 -> log10 x = Raise ValueError.
Proof.
  intro H. unfold log10. destruct (Rlt_dec 0 x); [lra | reflexivity].
Qed.

Lemma mapM_ok {A B : Type} (f : A -> result B) (g : A -> B) (l : list A) :
  (forall a, In a l -> f a = Ok (g a)) -> mapM f l = Ok (map g l).
Proof.
  induction l as [| a t IH]; intro H; simpl.
  - reflexivity.
  - rewrite (H a (or_introl eq_refl)). simpl.
    rewrite IH by (intros b Hb; apply H; right; exact Hb).
    reflexivity.
Qed.

Lemma mapM_raise_head {A B : Type} (f : A -> result B) (a : A) (t : list A) (e : exn) :
  f a = Raise e -> mapM f (a :: t) = Raise e.
Proof. intro H. simpl. rewrite H. reflexivity. Qed.

(** ** The transform of one point *)

Lemma interpolate_ok (v1 v2 p1 p2 p : R) :
  p2 <> p1 ->
  interpolate (Some v1) (Some v2) (Some p1) (Some p2) p
  = Ok (v1 + (p - p1) * (v2 - v1) / (p2 - p1)).
Proof.
  intro H. unfold interpolate. simpl.
  rewrite div_ok by lra. reflexivity.
Qed.

Lemma interpolate_zero_span (v1 v2 p1 p : R) :
  interpolate (Some v1) (Some v2) (Some p1) (Some p1) p = Raise ZeroDivisionError.
Proof.
  unfold interpolate. simpl. rewrite div_zero by lra. reflexivity.
Qed.

Lemma scale_values_ok (k : scale) (v1 v2 : R) :
  log_ok k v1 v2 ->
  scale_values (is_log k) (Some v1) (Some v2)
  = Ok (match k with
        | linear => (Some v1, Some v2)
        | log => (Some (lg v1), Some (lg v2))
        end).
Proof.
  intro H. destruct k; simpl.
  - reflexivity.
  - destruct (H eq_refl) as [H1 H2].
    unfold scale_values. simpl. rewrite (log10_ok v1 H1). simpl.
    rewrite (log10_ok v2 H2). reflexivity.
Qed.

Lemma scale_values_domain (v1 v2 : R) :
  v1 <= 0 \/ v2 <= 0 ->
  scale_values true (Some v1) (Some v2) = Raise ValueError.
Proof.
  intro H. unfold scale_values. simpl.
  destruct (Rlt_dec 0 v1) as [P | N].
  - rewrite (log10_ok v1 P). simpl. rewrite log10_domain by lra. reflexivity.
  - rewrite log10_domain by lra. reflexivity.
Qed.

Lemma is_log_kind (b : bool) : is_log (kind b) = b.
Proof. destruct b; reflexivity. Qed.

Lemma kind_is_log (k : scale) : kind (is_log k) = k.
Proof. destruct k; reflexivity. Qed.

Section Exporting.

Variable py_float : string -> option R.
Variable float_str : R -> string.

Lemma read_values_ok (w : window) (c : readings) :
  calibrated py_float w c -> read_values py_float w = (stored c w, None).
Proof.
  intros (_ & (E1 & E2 & E3 & E4) & (V1 & V2 & V3 & V4)).
  unfold read_values. rewrite E1, E2, E3, E4. simpl.
  rewrite V1. simpl. rewrite V2. simpl. rewrite V3. simpl. rewrite V4.
  reflexivity.
Qed.

Lemma to_real_ok (kx ky : scale) (c : readings) (pt : R * R) :
  xp2 c <> xp1 c -> yp2 c <> yp1 c ->
  to_real (is_log kx) (is_log ky)
    (Some (match kx with linear => xv1 c | log => lg (xv1 c) end))
    (Some (match kx with linear => xv2 c | log => lg (xv2 c) end))
    (Some (xp1 c)) (Some (xp2 c))
    (Some (match ky with linear => yv1 c | log => lg (yv1 c) end))
    (Some (match ky with linear => yv2 c | log => lg (yv2 c) end))
    (Some (yp1 c)) (Some (yp2 c)) pt
  = Ok (real_point kx ky c pt).
Proof.
  intros Hx Hy. destruct pt as [px py]. unfold to_real.
  rewrite (interpolate_ok _ _ _ _ px Hx). simpl.
  rewrite (interpolate_ok _ _ _ _ py Hy). simpl.
  unfold real_point, toRealValue, pow10. simpl.
  destruct kx, ky; reflexivity.
Qed.

Lemma reconstruct_ok (kx ky : scale) (w : window) (c : readings) :
  calibrated py_float w c ->
  xp2 c <> xp1 c -> yp2 c <> yp1 c ->
  log_ok kx (xv1 c) (xv2 c) -> log_ok ky (yv1 c) (yv2 c) ->
  reconstruct (is_log kx) (is_log ky) (stored c w)
  = Ok (map (real_point kx ky c) (data_points w)).
Proof.
  intros ((P1 & P2 & P3 & P4) & _ & _) Hx Hy Lx Ly.
  unfold reconstruct. simpl. rewrite P1, P2, P3, P4.
  rewrite (scale_values_ok kx _ _ Lx). simpl.
  rewrite (scale_values_ok ky _ _ Ly). simpl.
  apply mapM_ok. intros pt _.
  destruct kx, ky.
  - exact (to_real_ok linear linear c pt Hx Hy).
  - exact (to_real_ok linear log c pt Hx Hy).
  - exact (to_real_ok log linear c pt Hx Hy).
  - exact (to_real_ok log log c pt Hx Hy).
Qed.

(** A complete calibration is exported: the shared part of [save_data]. *)
Lemma export_ok (kx ky : scale) (w : window) (c : readings) (path : string) :
  calibrated py_float w c ->
  data_points w <> [] ->
  xp2 c <> xp1 c -> yp2 c <> yp1 c ->
  log_ok kx (xv1 c) (xv2 c) -> log_ok ky (yv1 c) (yv2 c) ->
  is_empty path = false ->
  export py_float float_str (is_log kx) (is_log ky) w path
  = (set_hint ("Export successful: " ++ path)%string (stored c w),
     Exported path (csv_text float_str (map (real_point kx ky c) (data_points w)))).
Proof.
  intros C D Hx Hy Lx Ly P. unfold export.
  destruct (data_points w) as [| pt pts] eqn:E; [contradiction |].
  rewrite (read_values_ok w c C).
  rewrite (reconstruct_ok kx ky w c C Hx Hy Lx Ly).
  rewrite P, E. reflexivity.
Qed.

Lemma missing_cal_nil (w : window) (c : readings) :
  calibrated py_float w c -> missing_cal w = [].
Proof.
  intros ((P1 & P2 & P3 & P4) & _). unfold missing_cal. simpl.
  rewrite P1, P2, P3, P4. reflexivity.
Qed.

Lemma first_missing_none (w : window) (c : readings) :
  calibrated py_float w c -> first_missing (items (calibration w)) = None.
Proof.
  intros ((P1 & P2 & P3 & P4) & _). simpl.
  rewrite P1, P2, P3, P4. reflexivity.
Qed.

End Exporting.

(** ** Export of a complete calibration *)

Section Save.

Variable py_float : string -> option R.
Variable float_str : R -> string.

Lemma save_data_ok (kx ky : scale) (w : window) (c : readings) (path : string) :
  calibrated py_float w c -> scales w kx ky ->
  data_points w <> [] ->
  xp2 c <> xp1 c -> yp2 c <> yp1 c ->
  log_ok kx (xv1 c) (xv2 c) -> log_ok ky (yv1 c) (yv2 c) ->
  is_empty path = false ->
  let done :=
    (set_hint ("Export successful: " ++ path)%string (stored c w),
     Exported path (csv_text float_str (map (real_point kx ky c) (data_points w)))) in
  save_data_v2 py_float float_str w path = done
  /\ save_data_v1 py_float float_str w path = done.
Proof.
  intros C ((S1 & S2) & (S3 & S4)) D Hx Hy Lx Ly P. split.
  - unfold save_data_v2. rewrite (missing_cal_nil py_float w c C), S1, S2.
    apply export_ok; assumption.
  - unfold save_data_v1. rewrite (first_missing_none py_float w c C), S3, S4.
    apply export_ok; assumption.
Qed.

End Save.

Lemma line_at_min (p1 v1 p2 v2 : R) : p1 <> p2 -> line p1 v1 p2 v2 p1 = v1.
Proof. intro H. unfold line. field. lra. Qed.

Lemma line_at_max (p1 v1 p2 v2 : R) : p1 <> p2 -> line p1 v1 p2 v2 p2 = v2.
Proof. intro H. unfold line. field. lra. Qed.

Lemma line_affine (p1 v1 p2 v2 : R) : p1 <> p2 -> affine (line p1 v1 p2 v2).
Proof.
  intro H. exists ((v2 - v1) / (p2 - p1)), (v1 - p1 * (v2 - v1) / (p2 - p1)).
  intro p. unfold line. field. lra.
Qed.

Lemma line_unique (p1 v1 p2 v2 : R) (f : R -> R) :
  p1 <> p2 -> affine f -> f p1 = v1 -> f p2 = v2 ->
  forall p, f p = line p1 v1 p2 v2 p.
Proof.
  intros H (a & b & F) F1 F2 p.
  rewrite F in F1, F2. rewrite F. unfold line. subst v1 v2. field. lra.
Qed.

(** C1. On a linear axis with both anchors set and [pMin <> pMax], the
    transform that [save_data] applies to a pixel [p] is
    [vMin + (p - pMin) * (vMax - vMin) / (pMax - pMin)]: the loop body
    computes it, the exported rows carry it, it is the one affine function
    through [(pMin, vMin)] and [(pMax, vMax)], and for the anchors
    (0, 0) and (100, 50) pixel 50 gives 25. *)
Theorem linear_transform_at_export
    (py_float : string -> option R) (float_str : R -> string)
    (kx ky : scale) (w : window) (c : readings) (path : string) :
  calibrated py_float w c -> scales w kx ky ->
  data_points w <> [] ->
  xp1 c <> xp2 c -> yp1 c <> yp2 c ->
  log_ok kx (xv1 c) (xv2 c) -> log_ok ky (yv1 c) (yv2 c) ->
  is_empty path = false ->
  (exists rows,
      snd (save_data_v2 py_float float_str w path) = Exported path (csv_text float_str rows)
      /\ snd (save_data_v1 py_float float_str w path) = Exported path (csv_text float_str rows)
      /\ (kx = linear ->
          map fst rows
          = map (fun pt => xv1 c + (fst pt - xp1 c) * (xv2 c - xv1 c) / (xp2 c - xp1 c))
                (data_points w))
      /\ (ky = linear ->
          map snd rows
          = map (fun pt => yv1 c + (snd pt - yp1 c) * (yv2 c - yv1 c) / (yp2 c - yp1 c))
                (data_points w)))
  /\ (forall pMin vMin pMax vMax p : R,
        pMin <> pMax ->
        interpolate (Some vMin) (Some vMax) (Some pMin) (Some pMax) p
        = Ok (vMin + (p - pMin) * (vMax - vMin) / (pMax - pMin))
        /\ toRealValue linear pMin vMin pMax vMax p
           = vMin + (p - pMin) * (vMax - vMin) / (pMax - pMin)
        /\ toRealValue linear pMin vMin pMax vMax pMin = vMin
        /\ toRealValue linear pMin vMin pMax vMax pMax = vMax
        /\ affine (toRealValue linear pMin vMin pMax vMax)
        /\ (forall f, affine f -> f pMin = vMin -> f pMax = vMax ->
                      forall q, f q = toRealValue linear pMin vMin pMax vMax q))
  /\ interpolate (Some 0) (Some 50) (Some 0) (Some 100) 50 = Ok 25.
Proof.
  intros C S D Hx Hy Lx Ly P.
  assert (Hx' : xp2 c <> xp1 c) by (intro E; apply Hx; symmetry; exact E).
  assert (Hy' : yp2 c <> yp1 c) by (intro E; apply Hy; symmetry; exact E).
  destruct (save_data_ok py_float float_str kx ky w c path C S D Hx' Hy' Lx Ly P)
    as [E2 E1].
  split; [| split].
  - exists (map (real_point kx ky c) (data_points w)).
    rewrite E2, E1. simpl. repeat split.
    + intro K. subst kx. rewrite map_map. reflexivity.
    + intro K. subst ky. rewrite map_map. reflexivity.
  - intros pMin vMin pMax vMax p H.
    change (toRealValue linear pMin vMin pMax vMax) with (line pMin vMin pMax vMax).
    repeat split.
    + apply interpolate_ok. intro E; apply H; symmetry; exact E.
    + apply line_at_min; exact H.
    + apply line_at_max; exact H.
    + apply line_affine; exact H.
    + intros f A F1 F2 q. apply line_unique; assumption.
  - rewrite interpolate_ok by lra. f_equal. field.
Qed.

Lemma w_linear_calibrated : calibrated dec_float w_linear c_linear.
Proof. unfold calibrated. repeat split; reflexivity. Qed.

Lemma w_linear_scales : scales w_linear linear linear.
Proof. unfold scales. repeat split; reflexivity. Qed.

Lemma log_ok_linear (v1 v2 : R) : log_ok linear v1 v2.
Proof. intro H. discriminate H. Qed.

Lemma linear_transform_at_export_witness :
  (calibrated dec_float w_linear c_linear /\ scales w_linear linear linear
   /\ data_points w_linear <> [] /\ xp1 c_linear <> xp2 c_linear
   /\ yp1 c_linear <> yp2 c_linear)
  /\ exists rows,
       snd (save_data_v2 dec_float opaque_str w_linear "out.csv")
       = Exported "out.csv" (csv_text opaque_str rows)
       /\ map fst rows = [25] /\ map snd rows = [25].
Proof.
  assert (D : data_points w_linear <> []) by (simpl; discriminate).
  assert (Hx : xp1 c_linear <> xp2 c_linear) by (simpl; lra).
  assert (Hy : yp1 c_linear <> yp2 c_linear) by (simpl; lra).
  split.
  - repeat split; try reflexivity; assumption.
  - destruct (linear_transform_at_export dec_float opaque_str linear linear
                w_linear c_linear "out.csv"
                w_linear_calibrated w_linear_scales D Hx Hy
                (log_ok_linear _ _) (log_ok_linear _ _) eq_refl)
      as [(rows & E2 & _ & Fx & Fy) _].
    exists rows. split; [exact E2 | split].
    + rewrite (Fx eq_refl). simpl. f_equal. field.
    + rewrite (Fy eq_refl). simpl. f_equal. field.
Defined.

(** ** Logarithmic axes *)

Lemma ln_10_pos : 0 < ln 10.
Proof. rewrite <- ln_1. apply ln_increasing; lra. Qed.

Lemma pow10_lg (v : R) : 0 < v -> Rpower 10 (lg v) = v.
Proof.
  intro H. unfold lg, Rpower.
  replace (ln v / ln 10 * ln 10) with (ln v)
    by (field; apply Rgt_not_eq; exact ln_10_pos).
  apply exp_ln; exact H.
Qed.

Lemma lg_1 : lg 1 = 0.
Proof. unfold lg. rewrite ln_1. field. apply Rgt_not_eq; exact ln_10_pos. Qed.

Lemma lg_1000 : lg 1000 = 3.
Proof.
  unfold lg. replace 1000 with (10 * (10 * 10)) by lra.
  rewrite !ln_mult by lra. field. apply Rgt_not_eq; exact ln_10_pos.
Qed.

Lemma pow10_1 : Rpower 10 1 = 10.
Proof. apply Rpower_1; lra. Qed.

Lemma pow10_2 : Rpower 10 2 = 100.
Proof.
  replace 2 with (1 + 1) by lra. rewrite Rpower_plus, pow10_1. lra.
Qed.

Lemma log_axis_1 : toRealValue log 0 1 3 1000 1 = 10.
Proof.
  unfold toRealValue. rewrite lg_1, lg_1000.
  replace (0 + (1 - 0) * (3 - 0) / (3 - 0)) with 1 by (field; lra).
  exact pow10_1.
Qed.

Lemma log_axis_2 : toRealValue log 0 1 3 1000 2 = 100.
Proof.
  unfold toRealValue. rewrite lg_1, lg_1000.
  replace (0 + (2 - 0) * (3 - 0) / (3 - 0)) with 2 by (field; lra).
  exact pow10_2.
Qed.

(** C2. On a logarithmic axis with two positive values and
    [pMin <> pMax], [save_data] takes the base-10 logarithms of the two
    values, interpolates between them and raises 10 to the result; with the
    values 1 and 1000 at the pixels 0 and 3, pixel 1 gives 10 and pixel 2
    gives 100. *)
Theorem log_transform_at_export
    (py_float : string -> option R) (float_str : R -> string)
    (kx ky : scale) (w : window) (c : readings) (path : string) :
  calibrated py_float w c -> scales w kx ky ->
  data_points w <> [] ->
  xp1 c <> xp2 c -> yp1 c <> yp2 c ->
  log_ok kx (xv1 c) (xv2 c) -> log_ok ky (yv1 c) (yv2 c) ->
  is_empty path = false ->
  (exists rows,
      snd (save_data_v2 py_float float_str w path) = Exported path (csv_text float_str rows)
      /\ snd (save_data_v1 py_float float_str w path) = Exported path (csv_text float_str rows)
      /\ (kx = log ->
          map fst rows
          = map (fun pt => Rpower 10 (lg (xv1 c) + (fst pt - xp1 c)
                                        * (lg (xv2 c) - lg (xv1 c)) / (xp2 c - xp1 c)))
                (data_points w))
      /\ (ky = log ->
          map snd rows
          = map (fun pt => Rpower 10 (lg (yv1 c) + (snd pt - yp1 c)
                                        * (lg (yv2 c) - lg (yv1 c)) / (yp2 c - yp1 c)))
                (data_points w)))
  /\ (forall pMin vMin pMax vMax p : R,
        pMin <> pMax -> 0 < vMin -> 0 < vMax ->
        (lv <- scale_values true (Some vMin) (Some vMax) ;;
         res <- interpolate (fst lv) (snd lv) (Some pMin) (Some pMax) p ;;
         Ok (pow10 res))
        = Ok (Rpower 10 (lg vMin + (p - pMin) * (lg vMax - lg vMin) / (pMax - pMin)))
        /\ toRealValue log pMin vMin pMax vMax pMin = vMin
        /\ toRealValue log pMin vMin pMax vMax pMax = vMax)
  /\ (lv <- scale_values true (Some 1) (Some 1000) ;;
      res <- interpolate (fst lv) (snd lv) (Some 0) (Some 3) 1 ;;
      Ok (pow10 res)) = Ok 10
  /\ (lv <- scale_values true (Some 1) (Some 1000) ;;
      res <- interpolate (fst lv) (snd lv) (Some 0) (Some 3) 2 ;;
      Ok (pow10 res)) = Ok 100.
Proof.
  intros C S D Hx Hy Lx Ly P.
  assert (Hx' : xp2 c <> xp1 c) by (intro E; apply Hx; symmetry; exact E).
  assert (Hy' : yp2 c <> yp1 c) by (intro E; apply Hy; symmetry; exact E).
  destruct (save_data_ok py_float float_str kx ky w c path C S D Hx' Hy' Lx Ly P)
    as [E2 E1].
  assert (G : forall pMin vMin pMax vMax p : R,
             pMin <> pMax -> 0 < vMin -> 0 < vMax ->
             (lv <- scale_values true (Some vMin) (Some vMax) ;;
              res <- interpolate (fst lv) (snd lv) (Some pMin) (Some pMax) p ;;
              Ok (pow10 res))
             = Ok (toRealValue log pMin vMin pMax vMax p)).
  { intros pMin vMin pMax vMax p H H1 H2.
    change true with (is_log log).
    rewrite (scale_values_ok log vMin vMax (fun _ => conj H1 H2)). simpl.
    rewrite interpolate_ok by (intro E; apply H; symmetry; exact E).
    reflexivity. }
  split; [| split; [| split]].
  - exists (map (real_point kx ky c) (data_points w)).
    rewrite E2, E1. simpl. repeat split.
    + intro K. subst kx. rewrite map_map. reflexivity.
    + intro K. subst ky. rewrite map_map. reflexivity.
  - intros pMin vMin pMax vMax p H H1 H2. split; [| split].
    + exact (G pMin vMin pMax vMax p H H1 H2).
    + unfold toRealValue.
      replace (lg vMin + (pMin - pMin) * (lg vMax - lg vMin) / (pMax - pMin))
        with (lg vMin) by (field; lra).
      apply pow10_lg; exact H1.
    + unfold toRealValue.
      replace (lg vMin + (pMax - pMin) * (lg vMax - lg vMin) / (pMax - pMin))
        with (lg vMax) by (field; lra).
      apply pow10_lg; exact H2.
  - rewrite G by lra. rewrite log_axis_1. reflexivity.
  - rewrite G by lra. rewrite log_axis_2. reflexivity.
Qed.

Lemma w_log_calibrated : calibrated dec_float w_log c_log.
Proof. unfold calibrated. repeat split; reflexivity. Qed.

Lemma w_log_scales : scales w_log log linear.
Proof. unfold scales. repeat split; reflexivity. Qed.

Lemma log_transform_at_export_witness :
  (calibrated dec_float w_log c_log /\ scales w_log log linear
   /\ data_points w_log <> [] /\ xp1 c_log <> xp2 c_log /\ yp1 c_log <> yp2 c_log
   /\ log_ok log (xv1 c_log) (xv2 c_log))
  /\ exists rows,
       snd (save_data_v2 dec_float opaque_str w_log "out.csv")
       = Exported "out.csv" (csv_text opaque_str rows)
       /\ map fst rows = [10; 100].
Proof.
  assert (D : data_points w_log <> []) by (simpl; discriminate).
  assert (Hx : xp1 c_log <> xp2 c_log) by (simpl; lra).
  assert (Hy : yp1 c_log <> yp2 c_log) by (simpl; lra).
  assert (Lx : log_ok log (xv1 c_log) (xv2 c_log)) by (intros _; simpl; lra).
  split.
  - repeat split; try reflexivity; try assumption; apply Lx; reflexivity.
  - destruct (log_transform_at_export dec_float opaque_str log linear
                w_log c_log "out.csv"
                w_log_calibrated w_log_scales D Hx Hy Lx
                (log_ok_linear _ _) eq_refl)
      as [(rows & E2 & _ & Fx & _) _].
    exists rows. split; [exact E2 |].
    rewrite (Fx eq_refl). simpl.
    change (Rpower 10 (lg 1 + (1 - 0) * (lg 1000 - lg 1) / (3 - 0)))
      with (toRealValue log 0 1 3 1000 1).
    change (Rpower 10 (lg 1 + (2 - 0) * (lg 1000 - lg 1) / (3 - 0)))
      with (toRealValue log 0 1 3 1000 2).
    rewrite log_axis_1, log_axis_2. reflexivity.
Defined.

(** ** Calibrations outside the domain of the transform *)

Section Domain.

Variable py_float : string -> option R.
Variable float_str : R -> string.

Lemma export_raise (xl yl : bool) (w : window) (c : readings) (path : string) (e : exn) :
  calibrated py_float w c -> data_points w <> [] ->
  reconstruct xl yl (stored c w) = Raise e ->
  export py_float float_str xl yl w path = (stored c w, Uncaught e).
Proof.
  intros C D H. unfold export.
  destruct (data_points w) as [| pt pts] eqn:E; [contradiction |].
  rewrite (read_values_ok py_float w c C), H. reflexivity.
Qed.

Lemma save_data_raise (kx ky : scale) (w : window) (c : readings) (path : string) (e : exn) :
  calibrated py_float w c -> scales w kx ky -> data_points w <> [] ->
  reconstruct (is_log kx) (is_log ky) (stored c w) = Raise e ->
  save_data_v2 py_float float_str w path = (stored c w, Uncaught e)
  /\ save_data_v1 py_float float_str w path = (stored c w, Uncaught e).
Proof.
  intros C ((S1 & S2) & (S3 & S4)) D H. split.
  - unfold save_data_v2. rewrite (missing_cal_nil py_float w c C), S1, S2.
    apply export_raise; assumption.
  - unfold save_data_v1. rewrite (first_missing_none py_float w c C), S3, S4.
    apply export_raise; assumption.
Qed.

Lemma reconstruct_x_domain (yl : bool) (w : window) (c : readings) :
  calibrated py_float w c ->
  xv1 c <= 0 \/ xv2 c <= 0 ->
  reconstruct true yl (stored c w) = Raise ValueError.
Proof.
  intros _ H. unfold reconstruct.
  change (val (x_min (calibration (stored c w)))) with (Some (xv1 c)).
  change (val (x_max (calibration (stored c w)))) with (Some (xv2 c)).
  rewrite (scale_values_domain _ _ H). reflexivity.
Qed.

Lemma reconstruct_y_domain (kx : scale) (w : window) (c : readings) :
  calibrated py_float w c ->
  log_ok kx (xv1 c) (xv2 c) ->
  yv1 c <= 0 \/ yv2 c <= 0 ->
  reconstruct (is_log kx) true (stored c w) = Raise ValueError.
Proof.
  intros _ Lx H. unfold reconstruct.
  change (val (x_min (calibration (stored c w)))) with (Some (xv1 c)).
  change (val (x_max (calibration (stored c w)))) with (Some (xv2 c)).
  change (val (y_min (calibration (stored c w)))) with (Some (yv1 c)).
  change (val (y_max (calibration (stored c w)))) with (Some (yv2 c)).
  rewrite (scale_values_ok kx _ _ Lx).
  rewrite (scale_values_domain _ _ H). reflexivity.
Qed.

Lemma to_real_zero_span (xl yl : bool) (x1 x2 y1 y2 xa xb ya yb : R) (pt : R * R) :
  xa = xb \/ ya = yb ->
  to_real xl yl (Some x1) (Some x2) (Some xa) (Some xb)
                (Some y1) (Some y2) (Some ya) (Some yb) pt
  = Raise ZeroDivisionError.
Proof.
  intro H. destruct pt as [px py]. unfold to_real.
  destruct (Req_dec_T xb xa) as [E | N].
  - subst xb. rewrite interpolate_zero_span. reflexivity.
  - rewrite (interpolate_ok _ _ _ _ px N). simpl.
    destruct H as [H | H]; [symmetry in H; contradiction |].
    subst yb. rewrite interpolate_zero_span. reflexivity.
Qed.

Lemma reconstruct_zero_span (kx ky : scale) (w : window) (c : readings) :
  calibrated py_float w c -> data_points w <> [] ->
  log_ok kx (xv1 c) (xv2 c) -> log_ok ky (yv1 c) (yv2 c) ->
  xp1 c = xp2 c \/ yp1 c = yp2 c ->
  reconstruct (is_log kx) (is_log ky) (stored c w) = Raise ZeroDivisionError.
Proof.
  intros ((P1 & P2 & P3 & P4) & _ & _) D Lx Ly H.
  unfold reconstruct. simpl. rewrite P1, P2, P3, P4.
  rewrite (scale_values_ok kx _ _ Lx). simpl.
  rewrite (scale_values_ok ky _ _ Ly). simpl.
  destruct (data_points w) as [| pt pts]; [contradiction |].
  apply mapM_raise_head.
  destruct kx, ky; simpl; apply to_real_zero_span; exact H.
Qed.

(** Whatever the values are, a calibrated window with traced points ends
    in the export or in an exception: no message box is shown. *)
Lemma reconstruct_total (xl yl : bool) (w : window) :
  (exists e, reconstruct xl yl w = Raise e) \/ (exists d, reconstruct xl yl w = Ok d).
Proof.
  destruct (reconstruct xl yl w) as [d | e]; [right; exists d | left; exists e]; reflexivity.
Qed.

End Domain.

(** C3, as the program has it.  Neither file checks the domain of the
    transform.  On a logarithmic axis with [vMin <= 0] or [vMax <= 0] the
    export ends with the [ValueError] of [math.log10], raised after the
    [try] block: no message box is shown, no file is written, the traced
    points are kept and the four parsed values stay stored.  With
    [pMin = pMax] on an axis the division by the zero span is reached and
    no message box is shown either. *)
Theorem domain_errors_not_reported
    (py_float : string -> option R) (float_str : R -> string)
    (kx ky : scale) (w : window) (c : readings) (path : string) :
  calibrated py_float w c -> scales w kx ky ->
  data_points w <> [] ->
  (kx = log -> xv1 c <= 0 \/ xv2 c <= 0 ->
   save_data_v2 py_float float_str w path = (stored c w, Uncaught ValueError)
   /\ save_data_v1 py_float float_str w path = (stored c w, Uncaught ValueError))
  /\ (log_ok kx (xv1 c) (xv2 c) -> ky = log -> yv1 c <= 0 \/ yv2 c <= 0 ->
      save_data_v2 py_float float_str w path = (stored c w, Uncaught ValueError)
      /\ save_data_v1 py_float float_str w path = (stored c w, Uncaught ValueError))
  /\ (xp1 c = xp2 c \/ yp1 c = yp2 c ->
      reported (snd (save_data_v2 py_float float_str w path)) = false
      /\ reported (snd (save_data_v1 py_float float_str w path)) = false)
  /\ data_points (stored c w) = data_points w
  /\ pixels (stored c w) = pixels w
  /\ vals (stored c w) = [Some (xv1 c); Some (xv2 c); Some (yv1 c); Some (yv2 c)].
Proof.
  intros C S D. split; [| split; [| split; [| repeat split]]].
  - intros K H. subst kx.
    apply (save_data_raise py_float float_str log ky w c path _ C S D).
    apply (reconstruct_x_domain py_float); assumption.
  - intros Lx K H. subst ky.
    apply (save_data_raise py_float float_str kx log w c path _ C S D).
    apply (reconstruct_y_domain py_float); assumption.
  - intros H.
    destruct (reconstruct_total (is_log kx) (is_log ky) (stored c w)) as [[e E] | [d E]].
    + destruct (save_data_raise py_float float_str kx ky w c path e C S D E) as [E2 E1].
      rewrite E2, E1. split; reflexivity.
    + exfalso.
      assert (Lx : log_ok kx (xv1 c) (xv2 c)).
      { intro K. subst kx. change (is_log log) with true in E.
        destruct (Rlt_dec 0 (xv1 c)) as [A | A], (Rlt_dec 0 (xv2 c)) as [B | B];
          try (split; assumption);
          rewrite (reconstruct_x_domain py_float _ w c C) in E by lra;
          discriminate E. }
      assert (Ly : log_ok ky (yv1 c) (yv2 c)).
      { intro K. subst ky. change (is_log log) with true in E.
        destruct (Rlt_dec 0 (yv1 c)) as [A | A], (Rlt_dec 0 (yv2 c)) as [B | B];
          try (split; assumption);
          rewrite (reconstruct_y_domain py_float kx w c C Lx) in E by lra;
          discriminate E. }
      rewrite (reconstruct_zero_span py_float kx ky w c C D Lx Ly H) in E.
      discriminate E.
Qed.

Lemma w_log_zero_calibrated : calibrated dec_float w_log_zero c_log_zero.
Proof. unfold calibrated. repeat split; reflexivity. Qed.

Lemma w_log_zero_scales : scales w_log_zero log linear.
Proof. unfold scales. repeat split; reflexivity. Qed.

Lemma w_zero_span_calibrated : calibrated dec_float w_zero_span c_zero_span.
Proof. unfold calibrated. repeat split; reflexivity. Qed.

Lemma w_zero_span_scales : scales w_zero_span linear linear.
Proof. unfold scales. repeat split; reflexivity. Qed.

Lemma domain_errors_not_reported_witness :
  (calibrated dec_float w_log_zero c_log_zero /\ scales w_log_zero log linear
   /\ data_points w_log_zero <> [] /\ xv1 c_log_zero <= 0)
  /\ save_data_v2 dec_float opaque_str w_log_zero "out.csv"
     = (stored c_log_zero w_log_zero, Uncaught ValueError).
Proof.
  assert (D : data_points w_log_zero <> []) by (simpl; discriminate).
  assert (V : xv1 c_log_zero <= 0) by (simpl; lra).
  split.
  - repeat split; try reflexivity; assumption.
  - destruct (domain_errors_not_reported dec_float opaque_str log linear
                w_log_zero c_log_zero "out.csv"
                w_log_zero_calibrated w_log_zero_scales D) as [H _].
    destruct (H eq_refl (or_introl V)) as [E2 _]. exact E2.
Defined.

(** C3 as stated fails: with the value 0 on a logarithmic x axis the
    export ends with an uncaught [ValueError], and with X Min and X Max on
    the same pixel column no warning is shown. *)
Lemma domain_error_counterexample :
  snd (save_data_v2 dec_float opaque_str w_log_zero "out.csv") = Uncaught ValueError
  /\ reported (snd (save_data_v2 dec_float opaque_str w_log_zero "out.csv")) = false
  /\ reported (snd (save_data_v2 dec_float opaque_str w_zero_span "out.csv")) = false.
Proof.
  assert (D : data_points w_log_zero <> []) by (simpl; discriminate).
  assert (D' : data_points w_zero_span <> []) by (simpl; discriminate).
  destruct (save_data_raise dec_float opaque_str log linear w_log_zero c_log_zero
              "out.csv" ValueError w_log_zero_calibrated w_log_zero_scales D) as [E _].
  { apply (reconstruct_x_domain dec_float).
    - exact w_log_zero_calibrated.
    - left. simpl. lra. }
  destruct (save_data_raise dec_float opaque_str linear linear w_zero_span c_zero_span
              "out.csv" ZeroDivisionError w_zero_span_calibrated w_zero_span_scales D')
    as [E' _].
  { apply (reconstruct_zero_span dec_float linear linear).
    - exact w_zero_span_calibrated.
    - exact D'.
    - apply log_ok_linear.
    - apply log_ok_linear.
    - left. reflexivity. }
  rewrite E, E'. repeat split.
Qed.

(** ** Missing pixel locations *)

Section Missing.

Variable py_float : string -> option R.
Variable float_str : R -> string.

Lemma missing_cal_spec (w : window) (n : string) :
  In n (missing_cal w)
  <-> exists kd, In kd (items (calibration w)) /\ pixel (snd kd) = None /\ name (snd kd) = n.
Proof.
  unfold missing_cal. rewrite in_map_iff. split.
  - intros (kd & N & I). apply filter_In in I. destruct I as [I P].
    exists kd. repeat split; try assumption.
    destruct (pixel (snd kd)); [discriminate | reflexivity].
  - intros (kd & I & P & N). exists kd. split; [exact N |].
    apply filter_In. split; [exact I |]. rewrite P. reflexivity.
Qed.

Lemma missing_cal_cons (w : window) :
  (exists kd, In kd (items (calibration w)) /\ pixel (snd kd) = None) ->
  missing_cal w <> [].
Proof.
  intros (kd & I & P) E.
  assert (M : In (name (snd kd)) (missing_cal w)).
  { apply missing_cal_spec. exists kd. repeat split; assumption. }
  rewrite E in M. exact M.
Qed.

Lemma all_pixels_set (w : window) :
  (forall kd, In kd (items (calibration w)) -> pixel (snd kd) <> None) ->
  missing_cal w = [] /\ first_missing (items (calibration w)) = None.
Proof.
  intro H.
  assert (H1 := H _ (or_introl eq_refl)).
  assert (H2 := H _ (or_intror (or_introl eq_refl))).
  assert (H3 := H _ (or_intror (or_intror (or_introl eq_refl)))).
  assert (H4 := H _ (or_intror (or_intror (or_intror (or_introl eq_refl))))).
  unfold missing_cal. simpl in *.
  destruct (pixel (x_min (calibration w))); [| contradiction].
  destruct (pixel (x_max (calibration w))); [| contradiction].
  destruct (pixel (y_min (calibration w))); [| contradiction].
  destruct (pixel (y_max (calibration w))); [| contradiction].
  split; reflexivity.
Qed.

End Missing.

(** C4, as the program has it.  When the pixel location of at least one
    anchor is unset, [save_data] of [UOP_CarbonTrace_v2.py] shows the
    "Calibration Missing" warning and returns with the window unchanged,
    whatever the traced points, the value texts and the path are; the
    message lists the names of exactly the anchors without a pixel
    location, each once, in the order x_min, x_max, y_min, y_max; when
    only that of y_max is unset it lists "Y Max" alone. *)
Theorem missing_pixels_all_listed
    (py_float : string -> option R) (float_str : R -> string)
    (w : window) (path : string) :
  (exists kd, In kd (items (calibration w)) /\ pixel (snd kd) = None) ->
  save_data_v2 py_float float_str w path
  = (w, Warned "Calibration Missing"
          ("You forgot to set the location for:" ++ nl
           ++ join nl (map (fun m => "- " ++ m) (missing_cal w)))%string)
  /\ (forall n, In n (missing_cal w)
                <-> exists kd, In kd (items (calibration w))
                               /\ pixel (snd kd) = None /\ name (snd kd) = n)
  /\ (pixel (x_min (calibration w)) <> None ->
      pixel (x_max (calibration w)) <> None ->
      pixel (y_min (calibration w)) <> None ->
      name (y_max (calibration w)) = "Y Max"%string ->
      snd (save_data_v2 py_float float_str w path)
      = Warned "Calibration Missing"
          ("You forgot to set the location for:" ++ nl ++ "- Y Max")%string)
  /\ missing_cal w
     = (match pixel (x_min (calibration w)) with
        | None => [name (x_min (calibration w))] | Some _ => [] end)
       ++ (match pixel (x_max (calibration w)) with
           | None => [name (x_max (calibration w))] | Some _ => [] end)
       ++ (match pixel (y_min (calibration w)) with
           | None => [name (y_min (calibration w))] | Some _ => [] end)
       ++ (match pixel (y_max (calibration w)) with
           | None => [name (y_max (calibration w))] | Some _ => [] end)
  /\ (pixel (x_min (calibration w)) = None ->
      pixel (x_max (calibration w)) = None ->
      pixel (y_min (calibration w)) = None ->
      pixel (y_max (calibration w)) = None ->
      snd (save_data_v2 py_float float_str w path)
      = Warned "Calibration Missing"
          ("You forgot to set the location for:" ++ nl
           ++ "- " ++ name (x_min (calibration w)) ++ nl
           ++ "- " ++ name (x_max (calibration w)) ++ nl
           ++ "- " ++ name (y_min (calibration w)) ++ nl
           ++ "- " ++ name (y_max (calibration w)))%string)
  /\ (pixel (x_min (calibration w)) <> None ->
      pixel (x_max (calibration w)) = None ->
      pixel (y_min (calibration w)) = None ->
      pixel (y_max (calibration w)) <> None ->
      snd (save_data_v2 py_float float_str w path)
      = Warned "Calibration Missing"
          ("You forgot to set the location for:" ++ nl
           ++ "- " ++ name (x_max (calibration w)) ++ nl
           ++ "- " ++ name (y_min (calibration w)))%string).
Proof.
  intro H.
  assert (M := missing_cal_cons w H).
  assert (E : save_data_v2 py_float float_str w path
              = (w, Warned "Calibration Missing" (msg_missing (missing_cal w)))).
  { unfold save_data_v2. destruct (missing_cal w); [contradiction | reflexivity]. }
  assert (L : missing_cal w
     = (match pixel (x_min (calibration w)) with
        | None => [name (x_min (calibration w))] | Some _ => [] end)
       ++ (match pixel (x_max (calibration w)) with
           | None => [name (x_max (calibration w))] | Some _ => [] end)
       ++ (match pixel (y_min (calibration w)) with
           | None => [name (y_min (calibration w))] | Some _ => [] end)
       ++ (match pixel (y_max (calibration w)) with
           | None => [name (y_max (calibration w))] | Some _ => [] end)).
  { unfold missing_cal. simpl.
    destruct (pixel (x_min (calibration w))), (pixel (x_max (calibration w))),
      (pixel (y_min (calibration w))), (pixel (y_max (calibration w))); reflexivity. }
  split; [exact E | split; [apply missing_cal_spec | split; [| split; [exact L | split]]]].
  - intros P1 P2 P3 N. rewrite E. simpl. f_equal.
    unfold missing_cal in *. simpl in *.
    destruct (pixel (x_min (calibration w))); [| contradiction].
    destruct (pixel (x_max (calibration w))); [| contradiction].
    destruct (pixel (y_min (calibration w))); [| contradiction].
    destruct (pixel (y_max (calibration w))); [contradiction |].
    simpl. rewrite N. reflexivity.
  - intros P1 P2 P3 P4. rewrite E, L, P1, P2, P3, P4. reflexivity.
  - intros P1 P2 P3 P4. rewrite E, L, P2, P3.
    destruct (pixel (x_min (calibration w))); [| contradiction].
    destruct (pixel (y_max (calibration w))); [| contradiction].
    reflexivity.
Qed.

Lemma missing_pixels_all_listed_witness :
  ((exists kd, In kd (items (calibration w_no_ymax_pixel)) /\ pixel (snd kd) = None)
   /\ save_data_v2 dec_float opaque_str w_no_ymax_pixel "out.csv"
      = (w_no_ymax_pixel,
         Warned "Calibration Missing"
           ("You forgot to set the location for:" ++ nl ++ "- Y Max")%string))
  /\ ((exists kd, In kd (items (calibration w_fresh)) /\ pixel (snd kd) = None)
      /\ save_data_v2 dec_float opaque_str w_fresh "out.csv"
         = (w_fresh,
            Warned "Calibration Missing"
              ("You forgot to set the location for:" ++ nl
               ++ "- X Min" ++ nl ++ "- X Max" ++ nl ++ "- Y Min" ++ nl ++ "- Y Max")%string)).
Proof.
  assert (H : exists kd, In kd (items (calibration w_no_ymax_pixel))
                         /\ pixel (snd kd) = None).
  { exists ("y_max"%string, y_max (calibration w_no_ymax_pixel)).
    split; [right; right; right; left |]; reflexivity. }
  assert (H' : exists kd, In kd (items (calibration w_fresh)) /\ pixel (snd kd) = None).
  { exists ("x_min"%string, x_min (calibration w_fresh)).
    split; [left |]; reflexivity. }
  split; (split; [assumption |]).
  - destruct (missing_pixels_all_listed dec_float opaque_str w_no_ymax_pixel "out.csv" H)
      as [E _].
    exact E.
  - destruct (missing_pixels_all_listed dec_float opaque_str w_fresh "out.csv" H')
      as [E _].
    exact E.
Defined.

(** C4 as stated fails.  In [UOP_CarbonTrace_v2.py] an anchor whose value
    was never entered is answered by a message that names no anchor; in
    [UOP_CarbonTrace.py] two anchors without a pixel location are answered
    by a message that names the first one only. *)
Lemma missing_anchor_counterexample :
  snd (save_data_v2 dec_float opaque_str w_no_ymax_value "out.csv")
  = Warned "Input Error" "Please enter values for all 4 axes limits."
  /\ snd (save_data_v1 dec_float opaque_str w_no_x_pixels "out.csv")
     = Warned "Calibration Error" "Missing x_min location on the graph.".
Proof. split; reflexivity. Qed.

(** ** An empty trace *)

(** C10, as the program has it.  With the four pixel locations set and no
    traced point, [save_data] shows "No trace data points found." and
    returns: the window is unchanged, the value texts are not looked at
    (they may be empty or no numbers) and no file is written. *)
Theorem empty_trace_rejected
    (py_float : string -> option R) (float_str : R -> string)
    (w : window) (path : string) :
  (forall kd, In kd (items (calibration w)) -> pixel (snd kd) <> None) ->
  data_points w = [] ->
  save_data_v2 py_float float_str w path
  = (w, Warned "Data Error" "No trace data points found.")
  /\ save_data_v1 py_float float_str w path
     = (w, Warned "Data Error" "No trace data points found.").
Proof.
  intros H D. destruct (all_pixels_set w H) as [M F].
  unfold save_data_v2, save_data_v1, export. rewrite M, F, D.
  split; reflexivity.
Qed.

Lemma empty_trace_rejected_witness :
  ((forall kd, In kd (items (calibration w_no_points)) -> pixel (snd kd) <> None)
   /\ data_points w_no_points = [])
  /\ save_data_v2 dec_float opaque_str w_no_points "out.csv"
     = (w_no_points, Warned "Data Error" "No trace data points found.").
Proof.
  assert (H : forall kd, In kd (items (calibration w_no_points))
                         -> pixel (snd kd) <> None).
  { intros kd [E | [E | [E | [E | []]]]]; subst kd; simpl; discriminate. }
  split; [split; [exact H | reflexivity] |].
  destruct (empty_trace_rejected dec_float opaque_str w_no_points "out.csv" H eq_refl)
    as [E _].
  exact E.
Defined.

(** C10 as stated fails: in the window as [__init__] leaves it (no traced
    point, nothing clicked) the export is answered by the warning about
    the missing pixel locations, not by "No trace data points found.". *)
Lemma empty_trace_counterexample :
  data_points w_fresh = []
  /\ snd (save_data_v2 dec_float opaque_str w_fresh "out.csv")
     = Warned "Calibration Missing"
         ("You forgot to set the location for:" ++ nl
          ++ "- X Min" ++ nl ++ "- X Max" ++ nl ++ "- Y Min" ++ nl ++ "- Y Max")%string
  /\ snd (save_data_v1 dec_float opaque_str w_fresh "out.csv")
     = Warned "Calibration Error" "Missing x_min location on the graph.".
Proof. repeat split. Qed.

(** ** The state after a failed operation *)

Section State.

Variable py_int : string -> option Z.
Variable py_float : string -> option R.
Variable float_str : R -> string.

(** What [read_values] leaves behind, case by case. *)
Lemma read_values_state (w : window) :
  let r := read_values py_float w in
  (data_points (fst r) = data_points w /\ pixels (fst r) = pixels w)
  /\ ((r = (w, Some (Warned "Input Error" msg_all_values)))
      \/ (snd r = Some (Warned "Input Error" msg_valid_numbers)
          /\ exists k, (k < 4)%nat /\ values_stored py_float k w (fst r)
                       /\ nth k (map py_float (value_texts w)) None = None)
      \/ (snd r = None /\ values_stored py_float 4 w (fst r))).
Proof.
  unfold read_values.
  destruct (is_empty (in_xmin w) || is_empty (in_xmax w)
            || is_empty (in_ymin w) || is_empty (in_ymax w)).
  { simpl. split; [split; reflexivity | left; reflexivity]. }
  destruct (py_float (in_xmin w)) as [v1 |] eqn:E1.
  2:{ simpl. split; [split; reflexivity |]. right; left. split; [reflexivity |].
      exists 0%nat. unfold values_stored. simpl. rewrite ?E1.
      repeat split; [lia | constructor]. }
  simpl. destruct (py_float (in_xmax w)) as [v2 |] eqn:E2.
  2:{ simpl. split; [split; reflexivity |]. right; left. split; [reflexivity |].
      exists 1%nat. unfold values_stored. simpl. rewrite ?E1, ?E2.
      repeat split; [lia | repeat constructor; discriminate]. }
  simpl. destruct (py_float (in_ymin w)) as [v3 |] eqn:E3.
  2:{ simpl. split; [split; reflexivity |]. right; left. split; [reflexivity |].
      exists 2%nat. unfold values_stored. simpl. rewrite ?E1, ?E2, ?E3.
      repeat split; [lia | repeat constructor; discriminate]. }
  simpl. destruct (py_float (in_ymax w)) as [v4 |] eqn:E4.
  2:{ simpl. split; [split; reflexivity |]. right; left. split; [reflexivity |].
      exists 3%nat. unfold values_stored. simpl. rewrite ?E1, ?E2, ?E3, ?E4.
      repeat split; [lia | repeat constructor; discriminate]. }
  simpl. split; [split; reflexivity |]. right; right. split; [reflexivity |].
  unfold values_stored. simpl. rewrite ?E1, ?E2, ?E3, ?E4.
  split; [reflexivity | repeat constructor; discriminate].
Qed.

(** What [export] leaves behind. *)
Lemma export_state (xl yl : bool) (w : window) (path : string) :
  let r := export py_float float_str xl yl w path in
  (data_points (fst r) = data_points w /\ pixels (fst r) = pixels w)
  /\ (exists k, (k <= 4)%nat /\ values_stored py_float k w (fst r))
  /\ (forall t m, snd r = Warned t m -> m <> msg_valid_numbers -> fst r = w)
  /\ (snd r = Warned "Input Error" msg_valid_numbers ->
      exists k, (k < 4)%nat /\ values_stored py_float k w (fst r)
                /\ nth k (map py_float (value_texts w)) None = None).
Proof.
  unfold export. destruct (data_points w) as [| pt pts] eqn:D.
  { simpl. rewrite D. split; [split; reflexivity |]. split; [| split].
    - exists 0%nat. split; [lia |]. split; [reflexivity | constructor].
    - reflexivity.
    - intro H. discriminate H. }
  destruct (read_values_state w) as [[S1 S2] S3]. rewrite D in S1.
  destruct (read_values py_float w) as [w1 o] eqn:RV. simpl in S1, S2, S3.
  destruct S3 as [S3 | [(S3 & k & K & V & N) | (S3 & V)]].
  - inversion S3; subst w1 o. simpl. rewrite D.
    split; [split; reflexivity |]. split; [| split].
    + exists 0%nat. split; [lia |]. split; [reflexivity | constructor].
    + reflexivity.
    + intro H. discriminate H.
  - subst o. simpl. split; [split; assumption |]. split; [| split].
    + exists k. split; [lia | exact V].
    + intros t m H. inversion H; subst. intro X. contradiction X. reflexivity.
    + intros _. exists k. split; [exact K | split; [exact V | exact N]].
  - subst o. assert (V4 : exists k, (k <= 4)%nat /\ values_stored py_float k w w1)
      by (exists 4%nat; split; [lia | exact V]).
    destruct (reconstruct xl yl w1) as [d | e].
    + destruct (is_empty path); simpl.
      * split; [split; assumption |]. split; [exact V4 | split]; intro H; intros;
          discriminate.
      * split; [split; assumption |]. split; [exact V4 | split]; intro H; intros;
          discriminate.
    + simpl. split; [split; assumption |]. split; [exact V4 | split]; intro H; intros;
        discriminate.
Qed.

Lemma save_data_v2_state (w : window) (path : string) :
  let r := save_data_v2 py_float float_str w path in
  (data_points (fst r) = data_points w /\ pixels (fst r) = pixels w)
  /\ (exists k, (k <= 4)%nat /\ values_stored py_float k w (fst r))
  /\ (forall t m, snd r = Warned t m -> m <> msg_valid_numbers -> fst r = w)
  /\ (snd r = Warned "Input Error" msg_valid_numbers ->
      exists k, (k < 4)%nat /\ values_stored py_float k w (fst r)
                /\ nth k (map py_float (value_texts w)) None = None).
Proof.
  unfold save_data_v2. destruct (missing_cal w).
  - apply export_state.
  - simpl. split; [split; reflexivity |]. split; [| split].
    + exists 0%nat. split; [lia |]. split; [reflexivity | constructor].
    + reflexivity.
    + intro H. discriminate H.
Qed.

Lemma save_data_v1_state (w : window) (path : string) :
  let r := save_data_v1 py_float float_str w path in
  (data_points (fst r) = data_points w /\ pixels (fst r) = pixels w)
  /\ (exists k, (k <= 4)%nat /\ values_stored py_float k w (fst r))
  /\ (forall t m, snd r = Warned t m -> m <> msg_valid_numbers -> fst r = w)
  /\ (snd r = Warned "Input Error" msg_valid_numbers ->
      exists k, (k < 4)%nat /\ values_stored py_float k w (fst r)
                /\ nth k (map py_float (value_texts w)) None = None).
Proof.
  unfold save_data_v1. destruct (first_missing (items (calibration w))).
  - simpl. split; [split; reflexivity |]. split; [| split].
    + exists 0%nat. split; [lia |]. split; [reflexivity | constructor].
    + reflexivity.
    + intro H. discriminate H.
  - apply export_state.
Qed.

Lemma select_by_color_invalid (w : window) (im : image) (e : exn) :
  img w = Some im -> color_inputs py_int py_float w = Raise e ->
  select_by_color py_int py_float w = set_hint "Invalid color inputs." w.
Proof.
  intros I H. unfold select_by_color. rewrite I, H. reflexivity.
Qed.


End State.

(** C8, as the program has it.  A failed [save_data] leaves the traced
    points and the four pixel locations as they were.  It leaves the whole
    window as it was when it fails at the check of the pixel locations, of
    the trace or of empty value texts.  When a value text is no number the
    values read before it have already been stored and stay stored, and
    when the failure comes after the [try] block all four are stored.  A
    [select_by_color] whose inputs are no numbers changes the hint only. *)
Theorem failed_operation_state
    (py_int : string -> option Z) (py_float : string -> option R)
    (float_str : R -> string) (w : window) (path : string) :
  (forall r,
      r = save_data_v2 py_float float_str w path
      \/ r = save_data_v1 py_float float_str w path ->
      failed (snd r) = true ->
      (data_points (fst r) = data_points w /\ pixels (fst r) = pixels w)
      /\ (exists k, (k <= 4)%nat /\ values_stored py_float k w (fst r))
      /\ (forall t m, snd r = Warned t m ->
                      m <> "Axes values must be valid numbers."%string -> fst r = w)
      /\ (snd r = Warned "Input Error" "Axes values must be valid numbers." ->
          exists k, (k < 4)%nat /\ values_stored py_float k w (fst r)
                    /\ nth k (map py_float (value_texts w)) None = None)
      /\ (forall e, snd r = Uncaught e -> values_stored py_float 4 w (fst r)))
  /\ (forall im e,
        img w = Some im -> color_inputs py_int py_float w = Raise e ->
        select_by_color py_int py_float w = set_hint "Invalid color inputs." w
        /\ calibration (select_by_color py_int py_float w) = calibration w
        /\ data_points (select_by_color py_int py_float w) = data_points w).
Proof.
  split.
  - intros r Hr _.
    assert (G :
      (data_points (fst r) = data_points w /\ pixels (fst r) = pixels w)
      /\ (exists k, (k <= 4)%nat /\ values_stored py_float k w (fst r))
      /\ (forall t m, snd r = Warned t m -> m <> msg_valid_numbers -> fst r = w)
      /\ (snd r = Warned "Input Error" msg_valid_numbers ->
          exists k, (k < 4)%nat /\ values_stored py_float k w (fst r)
                    /\ nth k (map py_float (value_texts w)) None = None)).
    { destruct Hr as [Hr | Hr]; subst r.
      - apply save_data_v2_state.
      - apply save_data_v1_state. }
    destruct G as (G1 & G2 & G3 & G4).
    repeat (split; [assumption |]).
    intros e U.
    assert (X : exists xl yl, r = export py_float float_str xl yl w path).
    { destruct Hr as [Hr | Hr]; subst r.
      - unfold save_data_v2 in *. destruct (missing_cal w); [| discriminate U].
        eexists; eexists; reflexivity.
      - unfold save_data_v1 in *.
        destruct (first_missing (items (calibration w))); [discriminate U |].
        eexists; eexists; reflexivity. }
    destruct X as (xl & yl & X). subst r. clear Hr G1 G2 G3 G4.
    unfold export in *. destruct (data_points w); [discriminate U |].
    destruct (read_values_state py_float w) as [_ S3].
    destruct (read_values py_float w) as [w1 o]. simpl in S3.
    destruct S3 as [S3 | [(S3 & _) | (S3 & V)]].
    + inversion S3; subst. discriminate U.
    + subst o. discriminate U.
    + subst o. destruct (reconstruct xl yl w1).
      * destruct (is_empty path); discriminate U.
      * exact V.
  - intros im e I H.
    rewrite (select_by_color_invalid py_int py_float w im e I H).
    repeat split.
Qed.

Lemma failed_operation_state_witness :
  failed (snd (save_data_v2 dec_float opaque_str w_bad_xmax "out.csv")) = true
  /\ data_points (fst (save_data_v2 dec_float opaque_str w_bad_xmax "out.csv"))
     = data_points w_bad_xmax
  /\ pixels (fst (save_data_v2 dec_float opaque_str w_bad_xmax "out.csv"))
     = pixels w_bad_xmax.
Proof.
  assert (F : failed (snd (save_data_v2 dec_float opaque_str w_bad_xmax "out.csv")) = true)
    by reflexivity.
  split; [exact F |].
  destruct (failed_operation_state dec_int dec_float opaque_str w_bad_xmax "out.csv")
    as [H _].
  destruct (H _ (or_introl eq_refl) F) as [G _].
  exact G.
Defined.

(** C8 as stated fails: when the text for X Min is a number and the text
    for X Max is not, the export fails and the value of X Min, unset
    before, is set after. *)
Lemma failed_export_counterexample :
  snd (save_data_v2 dec_float opaque_str w_bad_xmax "out.csv")
  = Warned "Input Error" "Axes values must be valid numbers."
  /\ val (x_min (calibration w_bad_xmax)) = None
  /\ val (x_min (calibration (fst (save_data_v2 dec_float opaque_str w_bad_xmax "out.csv"))))
     = Some 1.
Proof. repeat split. Qed.

(** ** The exported file *)

Lemma append_assoc (a b c : string) : ((a ++ b) ++ c = a ++ (b ++ c))%string.
Proof. induction a as [| ch a IH]; simpl; [reflexivity | rewrite IH; reflexivity]. Qed.

Lemma rows_text (float_str : R -> string) (rows : list (R * R)) :
  fold_right append EmptyString (map (csv_row float_str) rows)
  = unlines (map (fun r => (float_str (fst r) ++ "," ++ float_str (snd r))%string) rows).
Proof.
  induction rows as [| r rows IH]; simpl.
  - reflexivity.
  - rewrite IH. unfold csv_row. rewrite !append_assoc. reflexivity.
Qed.

Lemma csv_text_lines (float_str : R -> string) (rows : list (R * R)) :
  csv_text float_str rows = unlines (csv_lines float_str rows).
Proof.
  unfold csv_text, csv_lines. rewrite rows_text, append_assoc. reflexivity.
Qed.

Lemma log_ok_dec (b : bool) (v1 v2 : R) :
  {log_ok (kind b) v1 v2} + {b = true /\ (v1 <= 0 \/ v2 <= 0)}.
Proof.
  destruct b.
  - destruct (Rlt_dec 0 v1) as [A | A].
    + destruct (Rlt_dec 0 v2) as [B | B].
      * left. intros _. split; assumption.
      * right. split; [reflexivity | right; lra].
    + right. split; [reflexivity | left; lra].
  - left. apply log_ok_linear.
Qed.

Section Inversion.

Variable py_float : string -> option R.
Variable float_str : R -> string.

Lemma read_values_none (w w1 : window) :
  read_values py_float w = (w1, None) ->
  (is_empty (in_xmin w) = false /\ is_empty (in_xmax w) = false
   /\ is_empty (in_ymin w) = false /\ is_empty (in_ymax w) = false)
  /\ exists v1 v2 v3 v4,
       py_float (in_xmin w) = Some v1 /\ py_float (in_xmax w) = Some v2
       /\ py_float (in_ymin w) = Some v3 /\ py_float (in_ymax w) = Some v4.
Proof.
  unfold read_values.
  destruct (is_empty (in_xmin w)); [simpl; intro H; discriminate H |].
  destruct (is_empty (in_xmax w)); [simpl; intro H; discriminate H |].
  destruct (is_empty (in_ymin w)); [simpl; intro H; discriminate H |].
  destruct (is_empty (in_ymax w)); [simpl; intro H; discriminate H |].
  simpl.
  destruct (py_float (in_xmin w)) as [v1 |]; [| intro H; discriminate H].
  destruct (py_float (in_xmax w)) as [v2 |]; [| intro H; discriminate H].
  destruct (py_float (in_ymin w)) as [v3 |]; [| intro H; discriminate H].
  destruct (py_float (in_ymax w)) as [v4 |]; [| intro H; discriminate H].
  intros _. split; [repeat split |].
  exists v1, v2, v3, v4. repeat split.
Qed.

Lemma first_missing_some (l : list (string * anchor)) :
  (exists kd, In kd l /\ pixel (snd kd) = None) -> first_missing l <> None.
Proof.
  induction l as [| [key data] t IH]; intros (kd & I & N).
  - destruct I.
  - simpl. destruct (pixel data) eqn:P.
    + apply IH. destruct I as [I | I].
      * subst kd. simpl in N. rewrite P in N. discriminate N.
      * exists kd. split; assumption.
    + discriminate.
Qed.

End Inversion.

Lemma mapM_length {A B : Type} (f : A -> result B) (l : list A) (l' : list B) :
  mapM f l = Ok l' -> length l' = length l.
Proof.
  revert l'. induction l as [| a t IH]; intros l' H; simpl in H.
  - injection H as H. subst l'. reflexivity.
  - destruct (f a) as [b | e]; simpl in H; [| discriminate H].
    destruct (mapM f t) as [bs | e]; simpl in H; [| discriminate H].
    injection H as H. subst l'. simpl. rewrite (IH bs eq_refl). reflexivity.
Qed.

Section Written.

Variable py_float : string -> option R.
Variable float_str : R -> string.

(** Whatever [export] writes is the result of the loop over the trace,
    formatted row by row. *)
Lemma export_written (xl yl : bool) (w w' : window) (path p csv : string) :
  export py_float float_str xl yl w path = (w', Exported p csv) ->
  p = path /\ is_empty path = false
  /\ exists (real_data : list (R * R)) (x1 x2 y1 y2 : option R),
       mapM (to_real xl yl x1 x2 (pixel (x_min (calibration w)))
                     (pixel (x_max (calibration w)))
                     y1 y2 (pixel (y_min (calibration w)))
                     (pixel (y_max (calibration w))))
            (data_points w) = Ok real_data
       /\ length real_data = length (data_points w)
       /\ csv = csv_text float_str real_data.
Proof.
  unfold export. destruct (data_points w) as [| pt pts] eqn:D;
    [intro H; discriminate H |].
  destruct (read_values_state py_float w) as [[S1 S2] S3]. rewrite D in S1.
  destruct (read_values py_float w) as [w1 o]. simpl in S1, S2, S3.
  destruct S3 as [S3 | [(S3 & _) | (S3 & _)]];
    [inversion S3; subst; intro H; discriminate H
    | subst o; intro H; discriminate H
    | subst o].
  destruct (reconstruct xl yl w1) as [d | e] eqn:Rc; [| intro H; discriminate H].
  destruct (is_empty path) eqn:EP; intro H; [discriminate H |].
  injection H as _ Hp Hc. subst p csv.
  split; [reflexivity | split; [reflexivity |]].
  unfold reconstruct in Rc. rewrite S1 in Rc.
  unfold pixels in S2. simpl in S2. injection S2 as P1 P2 P3 P4.
  rewrite P1, P2, P3, P4 in Rc.
  destruct (scale_values xl (val (x_min (calibration w1))) (val (x_max (calibration w1))))
    as [xv | e]; cbn [bind] in Rc; [| discriminate Rc].
  destruct (scale_values yl (val (y_min (calibration w1))) (val (y_max (calibration w1))))
    as [yv | e]; cbn [bind] in Rc; [| discriminate Rc].
  exists d, (fst xv), (snd xv), (fst yv), (snd yv).
  split; [exact Rc | split; [| reflexivity]].
  apply (mapM_length _ _ _ Rc).
Qed.

End Written.

Lemma sample_str_25 (x : R) : x = 25 -> sample_str x = "25.0"%string.
Proof.
  intro H. unfold sample_str. destruct (Req_dec_T x 25); [reflexivity | contradiction].
Qed.

(** C9. Whenever [save_data] reaches the write, the file is the line
    [x,y] followed, for every traced point in the order of the trace, by
    one line [<x>,<y>] with the two transformed coordinates in the default
    formatting of floats; every line ends with a newline.  On a complete
    calibration inside the domain of the transform both files do reach the
    write, with exactly these contents. *)
Theorem export_is_csv_in_trace_order
    (py_float : string -> option R) (float_str : R -> string)
    (kx ky : scale) (w : window) (c : readings) (path : string) :
  (calibrated py_float w c -> scales w kx ky -> data_points w <> [] ->
   xp1 c <> xp2 c -> yp1 c <> yp2 c ->
   log_ok kx (xv1 c) (xv2 c) -> log_ok ky (yv1 c) (yv2 c) ->
   is_empty path = false ->
   let rows := map (real_point kx ky c) (data_points w) in
   let file := unlines ("x,y"%string
                        :: map (fun r => (float_str (fst r) ++ ","
                                          ++ float_str (snd r))%string) rows) in
   save_data_v2 py_float float_str w path
   = (set_hint ("Export successful: " ++ path)%string (stored c w), Exported path file)
   /\ save_data_v1 py_float float_str w path
      = (set_hint ("Export successful: " ++ path)%string (stored c w), Exported path file)
   /\ length rows = length (data_points w)
   /\ (forall i pt, nth_error (data_points w) i = Some pt ->
                    nth_error rows i = Some (real_point kx ky c pt)))
  /\ (forall w' p csv,
        save_data_v2 py_float float_str w path = (w', Exported p csv)
        \/ save_data_v1 py_float float_str w path = (w', Exported p csv) ->
        p = path /\ is_empty path = false
        /\ exists (real_data : list (R * R)) (xl yl : bool) (x1 x2 y1 y2 : option R),
             mapM (to_real xl yl x1 x2 (pixel (x_min (calibration w)))
                           (pixel (x_max (calibration w)))
                           y1 y2 (pixel (y_min (calibration w)))
                           (pixel (y_max (calibration w))))
                  (data_points w) = Ok real_data
             /\ length real_data = length (data_points w)
             /\ csv = unlines ("x,y"%string
                               :: map (fun r => (float_str (fst r) ++ ","
                                                 ++ float_str (snd r))%string)
                                      real_data)).
Proof.
  split.
  - intros C S D Hx Hy Lx Ly P rows file.
    assert (Hx' : xp2 c <> xp1 c) by (intro E; apply Hx; symmetry; exact E).
    assert (Hy' : yp2 c <> yp1 c) by (intro E; apply Hy; symmetry; exact E).
    destruct (save_data_ok py_float float_str kx ky w c path C S D Hx' Hy' Lx Ly P)
      as [E2 E1].
    assert (F : csv_text float_str (map (real_point kx ky c) (data_points w)) = file)
      by apply csv_text_lines.
    rewrite E2, E1, F.
    split; [reflexivity | split; [reflexivity | split]].
    + apply length_map.
    + intros i pt H. unfold rows. apply map_nth_error. exact H.
  - intros w' p csv H.
    assert (X : exists xl yl,
               export py_float float_str xl yl w path = (w', Exported p csv)).
    { destruct H as [H | H].
      - unfold save_data_v2 in H. destruct (missing_cal w); [| discriminate H].
        eexists; eexists; exact H.
      - unfold save_data_v1 in H.
        destruct (first_missing (items (calibration w))); [discriminate H |].
        eexists; eexists; exact H. }
    destruct X as (xl & yl & X).
    destruct (export_written py_float float_str xl yl w w' path p csv X)
      as (Pp & Pe & d & x1 & x2 & y1 & y2 & M & L & Pc).
    split; [exact Pp | split; [exact Pe |]].
    exists d, xl, yl, x1, x2, y1, y2.
    split; [exact M | split; [exact L |]].
    rewrite Pc. apply csv_text_lines.
Qed.

Lemma export_is_csv_in_trace_order_witness :
  (calibrated dec_float w_linear c_linear /\ scales w_linear linear linear
   /\ data_points w_linear <> [])
  /\ save_data_v2 dec_float sample_str w_linear "out.csv"
     = (set_hint "Export successful: out.csv" (stored c_linear w_linear),
        Exported "out.csv" ("x,y" ++ nl ++ "25.0,25.0" ++ nl)%string)
  /\ save_data_v1 dec_float sample_str w_linear "out.csv"
     = (set_hint "Export successful: out.csv" (stored c_linear w_linear),
        Exported "out.csv" ("x,y" ++ nl ++ "25.0,25.0" ++ nl)%string).
Proof.
  assert (D : data_points w_linear <> []) by (simpl; discriminate).
  assert (Hx : xp1 c_linear <> xp2 c_linear) by (simpl; lra).
  assert (Hy : yp1 c_linear <> yp2 c_linear) by (simpl; lra).
  split; [split; [exact w_linear_calibrated | split; [exact w_linear_scales | exact D]] |].
  destruct (export_is_csv_in_trace_order dec_float sample_str linear linear
              w_linear c_linear "out.csv") as [H _].
  destruct (H w_linear_calibrated w_linear_scales D Hx Hy
              (log_ok_linear _ _) (log_ok_linear _ _) eq_refl) as (E2 & E1 & _).
  assert (V : sample_str (toRealValue linear 0 0 100 50 50) = "25.0"%string)
    by (apply sample_str_25; unfold toRealValue; field).
  rewrite E2, E1.
  change (map (real_point linear linear c_linear) (data_points w_linear))
    with [(toRealValue linear 0 0 100 50 50, toRealValue linear 0 0 100 50 50)].
  cbn [map fst snd]. rewrite V. split; reflexivity.
Defined.

(** ** Colour extraction: columns and rows *)

Lemma insert_unique_In (x y : nat) (l : list nat) :
  In y (insert_unique x l) <-> y = x \/ In y l.
Proof.
  induction l as [| z t IH]; simpl.
  - intuition.
  - destruct (Nat.compare_spec x z) as [E | L | G]; simpl.
    + subst z. intuition.
    + intuition.
    + rewrite IH. intuition.
Qed.

Lemma insert_unique_sorted (x : nat) (l : list nat) :
  StronglySorted lt l -> StronglySorted lt (insert_unique x l).
Proof.
  induction l as [| z t IH]; intro S; simpl.
  - repeat constructor.
  - apply StronglySorted_inv in S. destruct S as [St Ft].
    destruct (Nat.compare_spec x z) as [E | L | G].
    + constructor; assumption.
    + constructor; [constructor; assumption |].
      constructor; [exact L |].
      apply (Forall_impl (lt x)) in Ft; [exact Ft | intros a Ha; lia].
    + constructor; [apply IH; exact St |].
      apply Forall_forall. intros a Ha. apply insert_unique_In in Ha.
      destruct Ha as [Ha | Ha]; [subst a; exact G |].
      rewrite Forall_forall in Ft. apply Ft; exact Ha.
Qed.

Lemma np_unique_In (x : nat) (l : list nat) : In x (np_unique l) <-> In x l.
Proof.
  induction l as [| z t IH]; simpl.
  - reflexivity.
  - rewrite insert_unique_In, IH. intuition.
Qed.

Lemma np_unique_sorted (l : list nat) : StronglySorted lt (np_unique l).
Proof.
  induction l as [| z t IH]; simpl.
  - constructor.
  - apply insert_unique_sorted; exact IH.
Qed.

Lemma mask_select_app {A : Type} (a a' : list A) (m m' : list bool) :
  length a = length m ->
  mask_select (a ++ a') (m ++ m') = mask_select a m ++ mask_select a' m'.
Proof.
  revert m. induction a as [| x a IH]; intros [| b m] L; simpl in *;
    try discriminate; try reflexivity.
  injection L as L. rewrite (IH m L). destruct b; reflexivity.
Qed.

(** In one row a column is selected once, where its cell is true. *)
Lemma select_where_row (y x x0 : nat) (row : list bool) :
  mask_select (map fst (where_row y x0 row))
              (map (Nat.eqb x) (map snd (where_row y x0 row)))
  = if (x0 <=? x)%nat && nth (x - x0) row false then [y] else [].
Proof.
  revert x0. induction row as [| b r IH]; intro x0; simpl.
  - destruct (x - x0)%nat; rewrite andb_false_r; reflexivity.
  - rewrite !map_app, mask_select_app
      by (rewrite !length_map; reflexivity).
    rewrite IH.
    destruct (Nat.leb_spec x0 x) as [L | L].
    + destruct (Nat.eq_dec x x0) as [E | N].
      * subst x0. rewrite Nat.sub_diag.
        replace (S x <=? x)%nat with false by (symmetry; apply Nat.leb_gt; lia).
        destruct b; simpl; [rewrite Nat.eqb_refl |]; reflexivity.
      * replace (S x0 <=? x)%nat with true by (symmetry; apply Nat.leb_le; lia).
        replace (x - x0)%nat with (S (x - S x0)) by lia. simpl.
        destruct b; simpl; [| reflexivity].
        replace (x =? x0)%nat with false by (symmetry; apply Nat.eqb_neq; exact N).
        reflexivity.
    + replace (S x0 <=? x)%nat with false by (symmetry; apply Nat.leb_gt; lia).
      simpl. destruct b; simpl; [| reflexivity].
      replace (x =? x0)%nat with false by (symmetry; apply Nat.eqb_neq; lia).
      reflexivity.
Qed.

(** Over the whole mask the selected rows of a column are its true cells,
    top to bottom. *)
Lemma select_where_from (x y0 : nat) (mask : list (list bool)) :
  mask_select (map fst (where_from y0 mask))
              (map (Nat.eqb x) (map snd (where_from y0 mask)))
  = filter (fun y => nth x (nth (y - y0) mask []) false) (seq y0 (length mask)).
Proof.
  revert y0. induction mask as [| row rest IH]; intro y0; simpl.
  - reflexivity.
  - rewrite !map_app, mask_select_app by (rewrite !length_map; reflexivity).
    rewrite select_where_row, IH. simpl. rewrite Nat.sub_diag, Nat.sub_0_r.
    assert (F : filter (fun y => nth x (nth (y - S y0) rest []) false)
                       (seq (S y0) (length rest))
                = filter (fun y => nth x match (y - y0)%nat with
                                         | O => row
                                         | S m => nth m rest []
                                         end false)
                         (seq (S y0) (length rest))).
    { apply filter_ext_in. intros y Hy. apply in_seq in Hy.
      replace (y - y0)%nat with (S (y - S y0)) by lia. reflexivity. }
    rewrite F. destruct (nth x row false); reflexivity.
Qed.

Lemma select_np_where (x : nat) (mask : list (list bool)) :
  mask_select (map fst (np_where mask)) (map (Nat.eqb x) (map snd (np_where mask)))
  = rows_in_column mask x.
Proof.
  unfold np_where, rows_in_column, mask_at. rewrite select_where_from.
  apply filter_ext. intro y. rewrite Nat.sub_0_r. reflexivity.
Qed.

Lemma mask_select_eqb_nil {A : Type} (x : nat) (a : list A) (b : list nat) :
  length a = length b ->
  (mask_select a (map (Nat.eqb x) b) <> [] <-> In x b).
Proof.
  revert b. induction a as [| u a IH]; intros [| v b] L; simpl in *;
    try discriminate.
  - intuition.
  - injection L as L. destruct (Nat.eqb_spec x v) as [E | N].
    + split; [intros _; left; symmetry; exact E | intros _; discriminate].
    + rewrite (IH b L). split; [intro I; right; exact I |].
      intros [E | I]; [exfalso; apply N; symmetry; exact E | exact I].
Qed.

Lemma rows_in_column_nil (mask : list (list bool)) (x : nat) :
  rows_in_column mask x <> [] <-> exists y, mask_at mask y x = true.
Proof.
  unfold rows_in_column. split.
  - intro H. destruct (filter (fun y => mask_at mask y x) (seq 0 (length mask)))
      as [| y t] eqn:F; [contradiction |].
    assert (I : In y (filter (fun y => mask_at mask y x) (seq 0 (length mask))))
      by (rewrite F; left; reflexivity).
    apply filter_In in I. exists y. apply I.
  - intros (y & M) F.
    assert (L : (y < length mask)%nat).
    { destruct (Nat.lt_ge_cases y (length mask)) as [L | G]; [exact L |].
      unfold mask_at in M. rewrite (nth_overflow mask [] G) in M.
      destruct x; discriminate M. }
    assert (I : In y (filter (fun y => mask_at mask y x) (seq 0 (length mask)))).
    { apply filter_In. split; [apply in_seq; lia | exact M]. }
    rewrite F in I. exact I.
Qed.

Lemma collapse_columns (mask : list (list bool)) :
  collapse mask
  = map (fun x => (INR x, np_mean (rows_in_column mask x)))
        (np_unique (map snd (np_where mask))).
Proof.
  unfold collapse. apply map_ext. intro x. rewrite select_np_where. reflexivity.
Qed.

Lemma column_matched (mask : list (list bool)) (x : nat) :
  In x (np_unique (map snd (np_where mask))) <-> exists y, mask_at mask y x = true.
Proof.
  rewrite np_unique_In, <- rows_in_column_nil, <- select_np_where.
  symmetry. apply mask_select_eqb_nil. rewrite !length_map. reflexivity.
Qed.


(** ** Colour extraction: which pixels match *)

Lemma norm_rgb (r g b tr tg tb : R) (rest : list R) :
  norm (sub_vec (firstn 3 (r :: g :: b :: rest)) [tr; tg; tb])
  = sqrt ((r - tr) * (r - tr) + (g - tg) * (g - tg) + (b - tb) * (b - tb)).
Proof. unfold norm, sub_vec. simpl. f_equal. ring. Qed.

Lemma mask_at_match (im : image) (target : list R) (tol : R) (y x : nat) :
  mask_at (match_mask im target tol) y x = true
  <-> exists row px,
        nth_error im y = Some row /\ nth_error row x = Some px
        /\ norm (sub_vec (firstn 3 px) target) < tol.
Proof.
  unfold mask_at, match_mask.
  set (f := fun px : list R => lt_b (norm (sub_vec (firstn 3 px) target)) tol).
  split.
  - intro H.
    destruct (nth_error im y) as [row |] eqn:Ey.
    + rewrite (nth_error_nth _ _ [] (map_nth_error (map f) y im Ey)) in H.
      destruct (nth_error row x) as [px |] eqn:Ex.
      * rewrite (nth_error_nth _ _ false (map_nth_error f x row Ex)) in H.
        exists row, px. split; [reflexivity | split; [exact Ex |]].
        apply lt_b_true. exact H.
      * apply nth_error_None in Ex.
        rewrite nth_overflow in H by (rewrite length_map; exact Ex).
        discriminate H.
    + apply nth_error_None in Ey.
      rewrite (nth_overflow (map (map f) im)) in H by (rewrite length_map; exact Ey).
      destruct x; discriminate H.
  - intros (row & px & Ey & Ex & D).
    rewrite (nth_error_nth _ _ [] (map_nth_error (map f) y im Ey)).
    rewrite (nth_error_nth _ _ false (map_nth_error f x row Ex)).
    apply lt_b_true. exact D.
Qed.

Lemma where_row_false (y x : nat) (row : list bool) :
  Forall (fun b => b = false) row -> where_row y x row = [].
Proof.
  revert x. induction row as [| b r IH]; intros x F; simpl.
  - reflexivity.
  - inversion F; subst. simpl. apply IH. assumption.
Qed.

Lemma where_from_false (y : nat) (mask : list (list bool)) :
  Forall (Forall (fun b => b = false)) mask -> where_from y mask = [].
Proof.
  revert y. induction mask as [| row rest IH]; intros y F; simpl.
  - reflexivity.
  - inversion F; subst. rewrite where_row_false by assumption. simpl.
    apply IH. assumption.
Qed.

Lemma norm_nonneg (v : list R) : 0 <= norm v.
Proof. unfold norm. apply sqrt_pos. Qed.

(** Without a positive tolerance nothing matches. *)
Lemma no_match_without_tolerance (im : image) (target : list R) (tol : R) :
  tol <= 0 -> collapse (match_mask im target tol) = [].
Proof.
  intro H. unfold collapse, np_where.
  rewrite where_from_false; [reflexivity |].
  unfold match_mask. apply Forall_forall. intros row Hrow.
  apply in_map_iff in Hrow. destruct Hrow as (r & E & _). subst row.
  apply Forall_forall. intros b Hb.
  apply in_map_iff in Hb. destruct Hb as (px & E & _). subst b.
  apply lt_b_false. pose proof (norm_nonneg (sub_vec (firstn 3 px) target)). lra.
Qed.

Section Colour.

Variable py_int : string -> option Z.
Variable py_float : string -> option R.

Lemma select_by_color_ok (w : window) (im : image) (r g b : Z) (t : R) :
  img w = Some im ->
  py_int (in_r w) = Some r -> py_int (in_g w) = Some g -> py_int (in_b w) = Some b ->
  py_float (in_tol w) = Some t ->
  select_by_color py_int py_float w
  = set_hint ("Auto-traced " ++ nat_str (length (new_points im r g b (t / 100)))
              ++ " points.")%string
             (set_data_points (data_points w ++ new_points im r g b (t / 100)) w).
Proof.
  intros I Er Eg Eb Et. unfold select_by_color, color_inputs.
  rewrite I, Er, Eg, Eb, Et. reflexivity.
Qed.


End Colour.

(** C6. For every image and every set of matched pixels the candidate
    points of [select_by_color] are one point per column with a match:
    the columns ascend strictly, each is a column with at least one
    matching row, every such column occurs, and the second coordinate is
    the sum of the matching row indices of the column over their number.
    The handler appends exactly these points to the trace. *)
Theorem one_point_per_matching_column :
  ((forall mask : list (list bool),
      exists cols,
        collapse mask = map (fun x => (INR x, np_mean (rows_in_column mask x))) cols
        /\ StronglySorted lt cols
        /\ (forall x, In x cols <-> exists y, mask_at mask y x = true)
        /\ (forall x, np_mean (rows_in_column mask x)
                      = fold_right (fun y s => INR y + s) 0 (rows_in_column mask x)
                        / INR (length (rows_in_column mask x)))
        /\ (forall x y, In y (rows_in_column mask x) <-> mask_at mask y x = true)
        /\ (forall x, StronglySorted lt (rows_in_column mask x)))
  /\ (forall (im : image) (r g b : Z) (tol : R),
        new_points im r g b tol
        = collapse (match_mask im [IZR r / 255; IZR g / 255; IZR b / 255] tol)))
  /\ (forall (py_int : string -> option Z) (py_float : string -> option R)
             (w : window) (im : image) (r g b : Z) (t : R),
        img w = Some im ->
        py_int (in_r w) = Some r -> py_int (in_g w) = Some g ->
        py_int (in_b w) = Some b -> py_float (in_tol w) = Some t ->
        fits_int64 r -> fits_int64 g -> fits_int64 b ->
        let mask := match_mask im [IZR r / 255; IZR g / 255; IZR b / 255] (t / 100) in
        exists cols,
          data_points (select_by_color py_int py_float w)
          = data_points w
            ++ map (fun x => (INR x,
                              fold_right (fun y s => INR y + s) 0 (rows_in_column mask x)
                              / INR (length (rows_in_column mask x)))) cols
          /\ StronglySorted lt cols
          /\ (forall x, In x cols <-> exists y, mask_at mask y x = true)
          /\ (forall x y, In y (rows_in_column mask x) <-> mask_at mask y x = true)
          /\ (forall y x,
                mask_at mask y x = true
                <-> exists row px,
                      nth_error im y = Some row /\ nth_error row x = Some px
                      /\ norm (sub_vec (firstn 3 px)
                                       [IZR r / 255; IZR g / 255; IZR b / 255])
                         < t / 100)).
Proof.
  assert (Old : (forall mask : list (list bool),
      exists cols,
        collapse mask = map (fun x => (INR x, np_mean (rows_in_column mask x))) cols
        /\ StronglySorted lt cols
        /\ (forall x, In x cols <-> exists y, mask_at mask y x = true)
        /\ (forall x, np_mean (rows_in_column mask x)
                      = fold_right (fun y s => INR y + s) 0 (rows_in_column mask x)
                        / INR (length (rows_in_column mask x)))
        /\ (forall x y, In y (rows_in_column mask x) <-> mask_at mask y x = true)
        /\ (forall x, StronglySorted lt (rows_in_column mask x)))
  /\ (forall (im : image) (r g b : Z) (tol : R),
        new_points im r g b tol
        = collapse (match_mask im [IZR r / 255; IZR g / 255; IZR b / 255] tol))).
  {
  split; [| reflexivity].
  intro mask. exists (np_unique (map snd (np_where mask))).
  split; [apply collapse_columns |].
  split; [apply np_unique_sorted |].
  split; [apply column_matched |].
  split; [reflexivity |].
  split.
  - intros x y. unfold rows_in_column. rewrite filter_In, in_seq. split.
    + intros [_ M]. exact M.
    + intro M. split; [| exact M]. split; [lia |]. simpl.
      destruct (Nat.lt_ge_cases y (length mask)) as [L | G]; [exact L |].
      unfold mask_at in M. rewrite (nth_overflow mask [] G) in M.
      destruct x; discriminate M.
  - intro x. unfold rows_in_column.
    generalize (fun y : nat => mask_at mask y x). intro f.
    generalize 0%nat. induction (length mask) as [| n IH]; intro s; simpl.
    + constructor.
    + destruct (f s).
      * constructor; [apply IH |]. apply Forall_forall. intros y Hy.
        apply filter_In in Hy. destruct Hy as [Hy _]. apply in_seq in Hy. lia.
      * apply IH. }
  split; [exact Old |].
  intros py_int py_float w im r g b t I Er Eg Eb Et _ _ _ mask.
  destruct Old as [Old _].
  destruct (Old mask) as (cols & C & S & M & _ & Rw & _).
  exists cols.
  split; [| split; [exact S | split; [exact M | split; [exact Rw |]]]].
  - rewrite (select_by_color_ok py_int py_float w im r g b t I Er Eg Eb Et).
    simpl. unfold new_points. fold mask. rewrite C. reflexivity.
  - intros y x. apply mask_at_match.
Qed.


(** The mask of the three-by-three example for the target black. *)
Lemma black_matches (tol : R) :
  lt_b (norm (sub_vec (firstn 3 black) [IZR 0 / 255; IZR 0 / 255; IZR 0 / 255])) tol
  = lt_b 0 tol.
Proof.
  unfold black. rewrite norm_rgb.
  replace ((0 - 0 / 255) * (0 - 0 / 255) + (0 - 0 / 255) * (0 - 0 / 255)
           + (0 - 0 / 255) * (0 - 0 / 255)) with 0 by field.
  rewrite sqrt_0. reflexivity.
Qed.

Lemma white_far_from_black (tol : R) :
  tol <= 1 ->
  lt_b (norm (sub_vec (firstn 3 white) [IZR 0 / 255; IZR 0 / 255; IZR 0 / 255])) tol
  = false.
Proof.
  intro H. unfold white. rewrite norm_rgb. apply lt_b_false.
  replace ((1 - 0 / 255) * (1 - 0 / 255) + (1 - 0 / 255) * (1 - 0 / 255)
           + (1 - 0 / 255) * (1 - 0 / 255)) with 3 by field.
  assert (S : sqrt 1 <= sqrt 3) by (apply sqrt_le_1; lra).
  rewrite sqrt_1 in S. lra.
Qed.

Lemma img3_mask (tol : R) :
  0 < tol -> tol <= 1 ->
  match_mask img3 [IZR 0 / 255; IZR 0 / 255; IZR 0 / 255] tol
  = [[true; false; false]; [false; true; false]; [true; false; false]].
Proof.
  intros P L.
  change (match_mask img3 [IZR 0 / 255; IZR 0 / 255; IZR 0 / 255] tol)
    with (let target := [IZR 0 / 255; IZR 0 / 255; IZR 0 / 255] in
          let bk := lt_b (norm (sub_vec (firstn 3 black) target)) tol in
          let wh := lt_b (norm (sub_vec (firstn 3 white) target)) tol in
          [[bk; wh; wh]; [wh; bk; wh]; [bk; wh; wh]]).
  cbv zeta. rewrite black_matches, (white_far_from_black tol L).
  replace (lt_b 0 tol) with true by (symmetry; apply lt_b_true; exact P).
  reflexivity.
Qed.

Lemma img3_points :
  collapse [[true; false; false]; [false; true; false]; [true; false; false]]
  = [(0, 1); (1, 1)].
Proof.
  rewrite collapse_columns.
  change (np_unique (map snd (np_where
            [[true; false; false]; [false; true; false]; [true; false; false]])))
    with [0%nat; 1%nat].
  cbn [map].
  change (rows_in_column
            [[true; false; false]; [false; true; false]; [true; false; false]] 0)
    with [0%nat; 2%nat].
  change (rows_in_column
            [[true; false; false]; [false; true; false]; [true; false; false]] 1)
    with [1%nat].
  unfold np_mean, sum_nat. simpl.
  apply f_equal2; [apply f_equal2; lra |].
  apply f_equal2; [apply f_equal2; lra | reflexivity].
Qed.

Lemma img3_zero_tolerance :
  data_points (select_by_color dec_int dec_float (w_color img3 "0" "0" "0" "0")) = [].
Proof.
  rewrite (select_by_color_ok dec_int dec_float _ img3 0 0 0 0) by reflexivity.
  simpl data_points. unfold new_points.
  rewrite no_match_without_tolerance by lra. reflexivity.
Qed.

Lemma img3_tolerance_10 :
  data_points (select_by_color dec_int dec_float (w_color img3 "0" "0" "0" "10"))
  = [(0, 1); (1, 1)].
Proof.
  rewrite (select_by_color_ok dec_int dec_float _ img3 0 0 0 10) by reflexivity.
  simpl data_points. unfold new_points.
  rewrite img3_mask by lra. exact img3_points.
Qed.

Lemma one_point_per_matching_column_witness :
  (img (w_color img3 "0" "0" "0" "10") = Some img3 /\ fits_int64 0)
  /\ exists cols,
       StronglySorted lt cols
       /\ In 0%nat cols
       /\ [(0, 1); (1, 1)]
          = map (fun x => (INR x,
                           fold_right (fun y s => INR y + s) 0
                             (rows_in_column
                                (match_mask img3 [IZR 0 / 255; IZR 0 / 255; IZR 0 / 255]
                                            (10 / 100)) x)
                           / INR (length
                                    (rows_in_column
                                       (match_mask img3
                                          [IZR 0 / 255; IZR 0 / 255; IZR 0 / 255]
                                          (10 / 100)) x)))) cols.
Proof.
  assert (F : fits_int64 0) by (unfold fits_int64; lia).
  split; [split; [reflexivity | exact F] |].
  destruct one_point_per_matching_column as [_ H].
  destruct (H dec_int dec_float (w_color img3 "0" "0" "0" "10") img3 0%Z 0%Z 0%Z 10
              eq_refl eq_refl eq_refl eq_refl eq_refl F F F) as (cols & D & S & M & _).
  exists cols. split; [exact S | split].
  - apply M. exists 0%nat. rewrite img3_mask by lra. reflexivity.
  - rewrite img3_tolerance_10 in D. exact D.
Defined.

(** C5, as the program has it.  [select_by_color] marks a pixel exactly
    when the Euclidean distance of its first three channels to the target
    divided by 255 is strictly below the tolerance, so that a tolerance of
    zero marks nothing.  On the three-by-three image with matches at rows
    0 and 2 of column 0 and at row 1 of column 1, the exactly matching
    target gives [(0, 1); (1, 1)] with the tolerance 10 and no point with
    the tolerance 0. *)
Theorem color_match_is_strict :
  (forall (im : image) (target : list R) (tol : R) (y x : nat),
      mask_at (match_mask im target tol) y x = true
      <-> exists row px,
            nth_error im y = Some row /\ nth_error row x = Some px
            /\ norm (sub_vec (firstn 3 px) target) < tol)
  /\ (forall (r g b tr tg tb : R) (rest : list R),
        norm (sub_vec (firstn 3 (r :: g :: b :: rest)) [tr; tg; tb])
        = sqrt ((r - tr) * (r - tr) + (g - tg) * (g - tg) + (b - tb) * (b - tb)))
  /\ (forall (im : image) (r g b : Z) (tol : R),
        tol <= 0 -> new_points im r g b tol = [])
  /\ data_points (select_by_color dec_int dec_float (w_color img3 "0" "0" "0" "10"))
     = [(0, 1); (1, 1)]
  /\ data_points (select_by_color dec_int dec_float (w_color img3 "0" "0" "0" "0")) = [].
Proof.
  split; [exact mask_at_match |].
  split; [exact norm_rgb |].
  split; [intros im r g b tol H; apply no_match_without_tolerance; exact H |].
  split; [exact img3_tolerance_10 | exact img3_zero_tolerance].
Qed.

Lemma color_match_is_strict_witness :
  (0 : R) <= 0 /\ new_points img3 0 0 0 0 = [].
Proof.
  assert (H : (0 : R) <= 0) by lra.
  split; [exact H |].
  destruct color_match_is_strict as (_ & _ & Z & _).
  exact (Z img3 0%Z 0%Z 0%Z 0 H).
Defined.

(** C5 as stated fails: on the three-by-three image an exactly matching
    target with zero tolerance gives no point at all. *)
Lemma color_zero_tolerance_counterexample :
  data_points (select_by_color dec_int dec_float (w_color img3 "0" "0" "0" "0")) = []
  /\ data_points (select_by_color dec_int dec_float (w_color img3 "0" "0" "0" "0"))
     <> [(0, 1); (1, 1)].
Proof.
  rewrite img3_zero_tolerance. split; [reflexivity | discriminate].
Qed.

(** ** Colour extraction: the inputs *)








(** * The interactive handlers *)

Lemma has_key_cases (c : calibration_t) (key : string) :
  has_key c key = true
  <-> key = "x_min"%string \/ key = "x_max"%string
      \/ key = "y_min"%string \/ key = "y_max"%string.
Proof.
  unfold has_key. simpl. rewrite !orb_true_iff, !String.eqb_eq. intuition discriminate.
Qed.

Lemma picking_is_no_key (c : calibration_t) : has_key c "picking_points" = false.
Proof. reflexivity. Qed.

Lemma set_data_points_same (w : window) : set_data_points (data_points w) w = w.
Proof. destruct w; reflexivity. Qed.

(** ** Calibration clicks *)

Lemma click_in_calibration (g : gui) (key : string) (event : mouse_event) :
  current_state g = Some key -> has_key (calibration (win g)) key = true ->
  inaxes event = true ->
  on_canvas_click g event
  = set_cursor ArrowCursor
      (set_current_state None
         (set_win (set_hint (key ++ " set. Input the value on the left.")%string
                     (set_calibration
                        (set_pixel key (clicked key event) (calibration (win g)))
                        (win g)))
                  (set_stat key g))).
Proof.
  intros S K I. unfold on_canvas_click. rewrite I, S, K. reflexivity.
Qed.

Lemma anchor_of_set_pixel_same (c : calibration_t) (key : string) (p : R) :
  anchor_of (set_pixel key p c) key = option_map (with_pixel p) (anchor_of c key).
Proof.
  unfold anchor_of, set_pixel.
  destruct (String.eqb key "x_min") eqn:E1; [rewrite ?E1; reflexivity |].
  destruct (String.eqb key "x_max") eqn:E2; [rewrite ?E1, ?E2; reflexivity |].
  destruct (String.eqb key "y_min") eqn:E3; [rewrite ?E1, ?E2, ?E3; reflexivity |].
  destruct (String.eqb key "y_max") eqn:E4; [rewrite ?E1, ?E2, ?E3, ?E4; reflexivity |].
  rewrite ?E1, ?E2, ?E3, ?E4. reflexivity.
Qed.

Lemma anchor_of_set_pixel_other (c : calibration_t) (key key' : string) (p : R) :
  key' <> key -> anchor_of (set_pixel key p c) key' = anchor_of c key'.
Proof.
  intro N. unfold anchor_of, set_pixel.
  destruct (String.eqb_spec key "x_min") as [E1 | E1].
  { subst key. destruct (String.eqb_spec key' "x_min"); [contradiction | reflexivity]. }
  destruct (String.eqb_spec key "x_max") as [E2 | E2].
  { subst key. destruct (String.eqb_spec key' "x_min"); [reflexivity |].
    destruct (String.eqb_spec key' "x_max"); [contradiction | reflexivity]. }
  destruct (String.eqb_spec key "y_min") as [E3 | E3].
  { subst key. destruct (String.eqb_spec key' "x_min"); [reflexivity |].
    destruct (String.eqb_spec key' "x_max"); [reflexivity |].
    destruct (String.eqb_spec key' "y_min"); [contradiction | reflexivity]. }
  destruct (String.eqb_spec key "y_max") as [E4 | E4].
  { subst key. destruct (String.eqb_spec key' "x_min"); [reflexivity |].
    destruct (String.eqb_spec key' "x_max"); [reflexivity |].
    destruct (String.eqb_spec key' "y_min"); [reflexivity |].
    destruct (String.eqb_spec key' "y_max"); [contradiction | reflexivity]. }
  reflexivity.
Qed.

Lemma vals_set_pixel (w : window) (key : string) (p : R) :
  vals (set_calibration (set_pixel key p (calibration w)) w) = vals w.
Proof.
  unfold set_pixel.
  destruct (String.eqb key "x_min"); [reflexivity |].
  destruct (String.eqb key "x_max"); [reflexivity |].
  destruct (String.eqb key "y_min"); [reflexivity |].
  destruct (String.eqb key "y_max"); [reflexivity |].
  destruct w as [i c d]; destruct c; reflexivity.
Qed.

(** X1. A click on the canvas while an anchor is waiting for its location
    stores the x coordinate of the click (for the keys beginning with x) or
    its y coordinate under that anchor and nowhere else: the other three
    anchors, all values and names and the traced points stay as they were.
    The click ends the calibration action: whatever is clicked next on the
    canvas changes nothing. *)
Theorem calibration_click_sets_one_anchor
    (g : gui) (key : string) (event next : mouse_event) :
  current_state g = Some key -> has_key (calibration (win g)) key = true ->
  inaxes event = true ->
  let g' := on_canvas_click g event in
  anchor_of (calibration (win g')) key
  = option_map (with_pixel (if prefix "x" key then xdata event else ydata event))
               (anchor_of (calibration (win g)) key)
  /\ (forall key', key' <> key ->
        anchor_of (calibration (win g')) key' = anchor_of (calibration (win g)) key')
  /\ vals (win g') = vals (win g)
  /\ data_points (win g') = data_points (win g)
  /\ current_state g' = None
  /\ on_canvas_click g' next = g'.
Proof.
  intros S K I g'. unfold g'. rewrite (click_in_calibration g key event S K I).
  split; [apply anchor_of_set_pixel_same |].
  split; [intros key' N; apply anchor_of_set_pixel_other; exact N |].
  split; [apply vals_set_pixel |].
  split; [reflexivity |].
  split; [reflexivity |].
  unfold on_canvas_click. destruct (negb (inaxes next)); reflexivity.
Qed.

Lemma calibration_click_sets_one_anchor_witness :
  (current_state (g_of w_no_ymax_pixel (Some "y_max"%string) false) = Some "y_max"%string
   /\ inaxes (left_click 7 93) = true)
  /\ pixel (y_max (calibration (win (on_canvas_click
                (g_of w_no_ymax_pixel (Some "y_max"%string) false) (left_click 7 93)))))
     = Some 93.
Proof.
  split; [split; reflexivity |].
  destruct (calibration_click_sets_one_anchor
              (g_of w_no_ymax_pixel (Some "y_max"%string) false) "y_max"
              (left_click 7 93) (left_click 0 0) eq_refl eq_refl eq_refl) as [E _].
  exact (f_equal (fun o => match o with Some a => pixel a | None => None end) E).
Defined.

(** ** Calibration actions in sequence *)

Lemma is_set_set_pixel_same (c : calibration_t) (key : string) (p : R) :
  has_key c key = true -> is_set (set_pixel key p c) key = true.
Proof.
  intro K. unfold is_set. rewrite anchor_of_set_pixel_same.
  apply has_key_cases in K. destruct K as [K | [K | [K | K]]]; subst key; reflexivity.
Qed.

Lemma is_set_set_pixel_keeps (c : calibration_t) (key k : string) (p : R) :
  is_set c k = true -> is_set (set_pixel key p c) k = true.
Proof.
  intro H. destruct (string_dec k key) as [E | N].
  - subst k. unfold is_set in *. rewrite anchor_of_set_pixel_same.
    destruct (anchor_of c key); [reflexivity | discriminate H].
  - unfold is_set in *. rewrite anchor_of_set_pixel_other by exact N. exact H.
Qed.

Lemma click_keeps_set (g : gui) (event : mouse_event) (k : string) :
  is_set (calibration (win g)) k = true ->
  is_set (calibration (win (on_canvas_click g event))) k = true.
Proof.
  intro H. unfold on_canvas_click.
  destruct (negb (inaxes event)); [exact H |].
  destruct (current_state g) as [key |]; [| exact H].
  destruct (has_key (calibration (win g)) key).
  - simpl. apply is_set_set_pixel_keeps. exact H.
  - destruct (String.eqb key "picking_points"); [| exact H].
    destruct (button event =? 1)%nat; [exact H |].
    destruct (button event =? 3)%nat; [| exact H].
    destruct (data_points (win g)); exact H.
Qed.

Lemma click_keeps_img (g : gui) (event : mouse_event) :
  img (win (on_canvas_click g event)) = img (win g).
Proof.
  unfold on_canvas_click.
  destruct (negb (inaxes event)); [reflexivity |].
  destruct (current_state g) as [key |]; [| reflexivity].
  destruct (has_key (calibration (win g)) key); [reflexivity |].
  destruct (String.eqb key "picking_points"); [| reflexivity].
  destruct (button event =? 1)%nat; [reflexivity |].
  destruct (button event =? 3)%nat; [| reflexivity].
  destruct (data_points (win g)); reflexivity.
Qed.

Lemma start_keeps_calibration (g : gui) (key : string) :
  calibration (win (start_calibration g key)) = calibration (win g)
  /\ img (win (start_calibration g key)) = img (win g)
  /\ data_points (win (start_calibration g key)) = data_points (win g).
Proof.
  unfold start_calibration. destruct (img (win g)) eqn:I; simpl; rewrite ?I; repeat split.
Qed.

Lemma calibrate_keeps_set (g : gui) (step : string * mouse_event) (k : string) :
  is_set (calibration (win g)) k = true ->
  is_set (calibration (win (calibrate g step))) k = true.
Proof.
  intro H. unfold calibrate. apply click_keeps_set.
  destruct (start_keeps_calibration g (fst step)) as [E _]. rewrite E. exact H.
Qed.

Lemma calibrate_keeps_img (g : gui) (step : string * mouse_event) :
  img (win (calibrate g step)) = img (win g).
Proof.
  unfold calibrate. rewrite click_keeps_img.
  apply (start_keeps_calibration g (fst step)).
Qed.

Lemma calibrate_sets (g : gui) (key : string) (event : mouse_event) (im : image) :
  img (win g) = Some im -> has_key (calibration (win g)) key = true ->
  inaxes event = true ->
  is_set (calibration (win (calibrate g (key, event)))) key = true.
Proof.
  intros I K A. unfold calibrate. simpl.
  assert (S : current_state (start_calibration g key) = Some key)
    by (unfold start_calibration; rewrite I; reflexivity).
  destruct (start_keeps_calibration g key) as [E _].
  rewrite (click_in_calibration _ key event S) by (rewrite ?E; assumption).
  simpl. rewrite E. apply is_set_set_pixel_same. exact K.
Qed.

Lemma fold_calibrate_keeps (steps : list (string * mouse_event)) (g : gui) (k : string) :
  is_set (calibration (win g)) k = true ->
  is_set (calibration (win (fold_left calibrate steps g))) k = true.
Proof.
  revert g. induction steps as [| st rest IH]; intros g H; simpl.
  - exact H.
  - apply IH. apply calibrate_keeps_set. exact H.
Qed.

Lemma fold_calibrate_sets (steps : list (string * mouse_event)) (g : gui)
    (im : image) (key : string) :
  img (win g) = Some im ->
  Forall (fun st => inaxes (snd st) = true) steps ->
  has_key (calibration (win g)) key = true ->
  In key (map fst steps) ->
  is_set (calibration (win (fold_left calibrate steps g))) key = true.
Proof.
  revert g. induction steps as [| st rest IH]; intros g I F K M; simpl in *.
  - destruct M.
  - inversion F as [| ? ? A F']; subst.
    destruct (string_dec (fst st) key) as [E | N].
    + apply fold_calibrate_keeps. destruct st as [k ev]. simpl in E. subst k.
      apply (calibrate_sets g key ev im I K A).
    + destruct M as [M | M]; [contradiction |].
      apply IH; try assumption.
      rewrite calibrate_keeps_img. exact I.
Qed.

Lemma is_set_pixels (c : calibration_t) :
  is_set c "x_min" = true -> is_set c "x_max" = true ->
  is_set c "y_min" = true -> is_set c "y_max" = true ->
  forall kd, In kd (items c) -> pixel (snd kd) <> None.
Proof.
  unfold is_set. simpl. intros H1 H2 H3 H4 kd [E | [E | [E | [E | []]]]];
    subst kd; simpl; intro N.
  - rewrite N in H1. discriminate H1.
  - rewrite N in H2. discriminate H2.
  - rewrite N in H3. discriminate H3.
  - rewrite N in H4. discriminate H4.
Qed.

(** X2. With an image loaded, any sequence of calibration actions (a
    "Set ..." button followed by a click inside the axes) that contains the
    four keys, in any order and with repetitions, leaves the four pixel
    locations set: [save_data] then finds no anchor missing, in either
    file. *)
Theorem calibration_sequence_completes
    (g : gui) (im : image) (steps : list (string * mouse_event)) :
  img (win g) = Some im ->
  Forall (fun st => inaxes (snd st) = true) steps ->
  (forall key, has_key (calibration (win g)) key = true -> In key (map fst steps)) ->
  let w' := win (fold_left calibrate steps g) in
  (forall kd, In kd (items (calibration w')) -> pixel (snd kd) <> None)
  /\ missing_cal w' = []
  /\ first_missing (items (calibration w')) = None.
Proof.
  intros I F A w'.
  assert (P : forall kd, In kd (items (calibration w')) -> pixel (snd kd) <> None).
  { apply is_set_pixels; unfold w';
      apply (fold_calibrate_sets steps g im _ I F);
      try (apply has_key_cases; tauto);
      apply A; apply has_key_cases; tauto. }
  split; [exact P |]. apply all_pixels_set. exact P.
Qed.

Lemma calibration_sequence_completes_witness :
  missing_cal
    (win (fold_left calibrate
            [("y_max"%string, left_click 3 90); ("x_min"%string, left_click 10 5);
             ("y_min"%string, left_click 3 10); ("x_max"%string, left_click 80 5)]
            (g_of (w_color img3 "0" "0" "0" "10") None false)))
  = [].
Proof.
  apply (calibration_sequence_completes
           (g_of (w_color img3 "0" "0" "0" "10") None false) img3).
  - reflexivity.
  - repeat constructor.
  - intros key K. apply has_key_cases in K. simpl.
    destruct K as [K | [K | [K | K]]]; subst key; tauto.
Defined.

Lemma set_stat_btn_pick (key : string) (g : gui) :
  btn_pick (set_stat key g) = btn_pick g.
Proof.
  unfold set_stat.
  destruct (String.eqb key "x_min"); [reflexivity |].
  destruct (String.eqb key "x_max"); [reflexivity |].
  destruct (String.eqb key "y_min"); [reflexivity |].
  destruct (String.eqb key "y_max"); reflexivity.
Qed.

(** X3. A calibration action pauses manual tracing.  When the Manual Trace
    button is checked and a "Set ..." button is then used, the click that
    gives the location of the anchor resets the mode, so that the next left
    click on the canvas adds no traced point although the button is still
    checked. *)
Theorem calibration_pauses_tracing
    (g : gui) (im : image) (key : string) (event next : mouse_event) :
  img (win g) = Some im -> btn_pick g = true ->
  has_key (calibration (win g)) key = true -> inaxes event = true ->
  let g1 := toggle_picking g in
  let g2 := calibrate g1 (key, event) in
  current_state g1 = Some "picking_points"%string
  /\ current_state g2 = None
  /\ btn_pick g2 = true
  /\ on_canvas_click g2 next = g2
  /\ data_points (win (on_canvas_click g2 next)) = data_points (win g).
Proof.
  intros I B K A g1 g2.
  assert (S1 : current_state g1 = Some "picking_points"%string)
    by (unfold g1, toggle_picking; rewrite B; reflexivity).
  assert (I1 : img (win g1) = Some im)
    by (unfold g1, toggle_picking; rewrite B; exact I).
  assert (C1 : calibration (win g1) = calibration (win g))
    by (unfold g1, toggle_picking; rewrite B; reflexivity).
  assert (S : current_state (start_calibration g1 key) = Some key)
    by (unfold start_calibration; rewrite I1; reflexivity).
  destruct (start_keeps_calibration g1 key) as (E & _ & D).
  assert (E2 : g2 = on_canvas_click (start_calibration g1 key) event) by reflexivity.
  rewrite (click_in_calibration _ key event S) in E2
    by (rewrite ?E, ?C1; assumption).
  assert (N : on_canvas_click g2 next = g2).
  { rewrite E2. unfold on_canvas_click. destruct (negb (inaxes next)); reflexivity. }
  split; [exact S1 |].
  split; [rewrite E2; reflexivity |].
  split; [rewrite E2; simpl; rewrite set_stat_btn_pick;
          unfold start_calibration; rewrite I1; simpl;
          unfold g1, toggle_picking; rewrite B; exact B |].
  split; [exact N |].
  rewrite N, E2. simpl. rewrite D. unfold g1, toggle_picking. rewrite B. reflexivity.
Qed.

Lemma calibration_pauses_tracing_witness :
  (img (win (g_of (w_color img3 "0" "0" "0" "10") None true)) = Some img3
   /\ btn_pick (g_of (w_color img3 "0" "0" "0" "10") None true) = true)
  /\ data_points
       (win (on_canvas_click
               (calibrate (toggle_picking (g_of (w_color img3 "0" "0" "0" "10") None true))
                          ("x_min"%string, left_click 10 5))
               (left_click 40 40)))
     = [].
Proof.
  split; [split; reflexivity |].
  destruct (calibration_pauses_tracing
              (g_of (w_color img3 "0" "0" "0" "10") None true) img3 "x_min"
              (left_click 10 5) (left_click 40 40) eq_refl eq_refl eq_refl eq_refl)
    as (_ & _ & _ & _ & D).
  exact D.
Defined.

(** ** Manual tracing and undo *)

Lemma left_click_appends (g : gui) (event : mouse_event) :
  current_state g = Some "picking_points"%string ->
  inaxes event = true -> button event = 1%nat ->
  on_canvas_click g event
  = set_cursor CrossCursor
      (set_win (set_data_points (data_points (win g) ++ [(xdata event, ydata event)])
                                (win g)) g).
Proof.
  intros S A B. unfold on_canvas_click. rewrite A, S, B. reflexivity.
Qed.

Lemma right_click_pops (g : gui) (event : mouse_event) :
  current_state g = Some "picking_points"%string ->
  inaxes event = true -> button event = 3%nat ->
  win (on_canvas_click g event)
  = set_data_points (removelast (data_points (win g))) (win g)
  /\ current_state (on_canvas_click g event) = Some "picking_points"%string.
Proof.
  intros S A B. unfold on_canvas_click. rewrite A, S, B. simpl.
  destruct (data_points (win g)) as [| pt pts] eqn:D.
  - split; [| exact S].
    transitivity (set_data_points (data_points (win g)) (win g));
      [symmetry; apply set_data_points_same | rewrite D; reflexivity].
  - split; [reflexivity | exact S].
Qed.

(** X4. Undo takes back the last pick.  In tracing mode a left click
    inside the axes appends its data coordinates to the trace, and a right
    click after it gives back the window as it was before the left click;
    a right click on an empty trace changes nothing. *)
Theorem undo_takes_back_last_pick (g : gui) (pick undo : mouse_event) :
  current_state g = Some "picking_points"%string ->
  inaxes pick = true -> button pick = 1%nat ->
  inaxes undo = true -> button undo = 3%nat ->
  data_points (win (on_canvas_click g pick))
  = data_points (win g) ++ [(xdata pick, ydata pick)]
  /\ win (on_canvas_click (on_canvas_click g pick) undo) = win g
  /\ current_state (on_canvas_click (on_canvas_click g pick) undo)
     = Some "picking_points"%string
  /\ (data_points (win g) = [] -> on_canvas_click g undo = g).
Proof.
  intros S A1 B1 A3 B3.
  rewrite (left_click_appends g pick S A1 B1).
  split; [reflexivity |].
  destruct (right_click_pops
              (set_cursor CrossCursor
                 (set_win (set_data_points
                             (data_points (win g) ++ [(xdata pick, ydata pick)])
                             (win g)) g)) undo S A3 B3) as [W C].
  split; [| split; [exact C |]].
  - rewrite W. simpl. rewrite removelast_last. destruct g as [w]; destruct w; reflexivity.
  - intro D. unfold on_canvas_click. rewrite A3, S, B3, D. reflexivity.
Qed.

Lemma undo_takes_back_last_pick_witness :
  current_state (g_of w_linear (Some "picking_points"%string) true)
  = Some "picking_points"%string
  /\ win (on_canvas_click
            (on_canvas_click (g_of w_linear (Some "picking_points"%string) true)
                             (left_click 12 34))
            (right_click 0 0))
     = w_linear.
Proof.
  split; [reflexivity |].
  destruct (undo_takes_back_last_pick
              (g_of w_linear (Some "picking_points"%string) true)
              (left_click 12 34) (right_click 0 0)
              eq_refl eq_refl eq_refl eq_refl eq_refl) as (_ & W & _).
  exact W.
Defined.

Section AutoTraceUndo.

Variable py_int : string -> option Z.
Variable py_float : string -> option R.


End AutoTraceUndo.


(** X6. Clicks that do nothing: a click outside the axes, a click while no
    mode is active, and in tracing mode a click with a button other than
    the left and the right one leave every attribute as it is. *)
Theorem ignored_clicks (g : gui) (event : mouse_event) :
  inaxes event = false
  \/ current_state g = None
  \/ (current_state g = Some "picking_points"%string
      /\ button event <> 1%nat /\ button event <> 3%nat) ->
  on_canvas_click g event = g.
Proof.
  intros [H | [H | (S & B1 & B3)]]; unfold on_canvas_click.
  - rewrite H. reflexivity.
  - rewrite H. destruct (negb (inaxes event)); reflexivity.
  - rewrite S. destruct (negb (inaxes event)); [reflexivity |].
    rewrite picking_is_no_key. simpl.
    destruct (Nat.eqb_spec (button event) 1); [contradiction |].
    destruct (Nat.eqb_spec (button event) 3); [contradiction | reflexivity].
Qed.

Lemma ignored_clicks_witness :
  inaxes (mk_event false 1 2 1) = false
  /\ on_canvas_click (g_of w_linear (Some "picking_points"%string) true)
                     (mk_event false 1 2 1)
     = g_of w_linear (Some "picking_points"%string) true.
Proof.
  split; [reflexivity |].
  apply ignored_clicks. left. reflexivity.
Defined.

(** ** Without an image *)

(** X7. Calibration needs an image, tracing does not.  While no image is
    loaded a "Set ..." button only shows "Please load an image first." and
    keeps the mode, so that the click that follows calibrates nothing; if
    tracing was switched on before, that click is recorded as a traced
    point instead. *)
Theorem calibration_without_image (g : gui) (key : string) (event : mouse_event) :
  img (win g) = None ->
  start_calibration g key = set_win (set_hint "Please load an image first." (win g)) g
  /\ current_state (start_calibration g key) = current_state g
  /\ (current_state g = None ->
      calibrate g (key, event) = start_calibration g key)
  /\ (current_state g = Some "picking_points"%string ->
      inaxes event = true -> button event = 1%nat ->
      data_points (win (calibrate g (key, event)))
      = data_points (win g) ++ [(xdata event, ydata event)]
      /\ calibration (win (calibrate g (key, event))) = calibration (win g)).
Proof.
  intro I.
  assert (E : start_calibration g key
              = set_win (set_hint "Please load an image first." (win g)) g)
    by (unfold start_calibration; rewrite I; reflexivity).
  split; [exact E |]. unfold calibrate. simpl. rewrite E.
  split; [reflexivity | split].
  - intro S. apply ignored_clicks. right. left. exact S.
  - intros S A B. rewrite left_click_appends by assumption. split; reflexivity.
Qed.

Lemma calibration_without_image_witness :
  img (win (g_of w_linear (Some "picking_points"%string) true)) = None
  /\ data_points
       (win (calibrate (g_of w_linear (Some "picking_points"%string) true)
                       ("x_min"%string, left_click 12 34)))
     = [(50, 50); (12, 34)].
Proof.
  split; [reflexivity |].
  destruct (calibration_without_image
              (g_of w_linear (Some "picking_points"%string) true) "x_min"
              (left_click 12 34) eq_refl) as (_ & _ & _ & H).
  destruct (H eq_refl eq_refl eq_refl) as [D _]. exact D.
Defined.

(** ** What the export depends on *)

Section ExportInputs.

Variable py_float : string -> option R.
Variable float_str : R -> string.

Lemma export_inputs_fields (w w' : window) :
  export_inputs w = export_inputs w' ->
  (pixel (x_min (calibration w)) = pixel (x_min (calibration w'))
   /\ pixel (x_max (calibration w)) = pixel (x_max (calibration w'))
   /\ pixel (y_min (calibration w)) = pixel (y_min (calibration w'))
   /\ pixel (y_max (calibration w)) = pixel (y_max (calibration w')))
  /\ (name (x_min (calibration w)) = name (x_min (calibration w'))
      /\ name (x_max (calibration w)) = name (x_max (calibration w'))
      /\ name (y_min (calibration w)) = name (y_min (calibration w'))
      /\ name (y_max (calibration w)) = name (y_max (calibration w')))
  /\ data_points w = data_points w'
  /\ (in_xmin w = in_xmin w' /\ in_xmax w = in_xmax w'
      /\ in_ymin w = in_ymin w' /\ in_ymax w = in_ymax w')
  /\ (x_scale_type w = x_scale_type w' /\ y_scale_type w = y_scale_type w')
  /\ (rad_x_log w = rad_x_log w' /\ rad_y_log w = rad_y_log w').
Proof.
  unfold export_inputs, pixels, value_texts. simpl. intro H.
  injection H as P1 P2 P3 P4 N1 N2 N3 N4 D T1 T2 T3 T4 S1 S2 R1 R2.
  repeat split; assumption.
Qed.

Lemma read_values_ext (w w' : window) :
  export_inputs w = export_inputs w' ->
  snd (read_values py_float w) = snd (read_values py_float w')
  /\ (snd (read_values py_float w) = None ->
      pixels (fst (read_values py_float w)) = pixels (fst (read_values py_float w'))
      /\ vals (fst (read_values py_float w)) = vals (fst (read_values py_float w'))
      /\ data_points (fst (read_values py_float w))
         = data_points (fst (read_values py_float w'))).
Proof.
  intro H. destruct (export_inputs_fields w w' H)
    as ((P1 & P2 & P3 & P4) & _ & D & (T1 & T2 & T3 & T4) & _).
  unfold read_values. rewrite <- T1, <- T2, <- T3, <- T4.
  destruct (is_empty (in_xmin w) || is_empty (in_xmax w)
            || is_empty (in_ymin w) || is_empty (in_ymax w)).
  { simpl. split; [reflexivity | intro X; discriminate X]. }
  destruct (py_float (in_xmin w)); simpl;
    [| split; [reflexivity | intro X; discriminate X]].
  rewrite <- T2.
  destruct (py_float (in_xmax w)); simpl;
    [| split; [reflexivity | intro X; discriminate X]].
  rewrite <- T3.
  destruct (py_float (in_ymin w)); simpl;
    [| split; [reflexivity | intro X; discriminate X]].
  rewrite <- T4.
  destruct (py_float (in_ymax w)); simpl;
    [| split; [reflexivity | intro X; discriminate X]].
  split; [reflexivity |]. intros _.
  unfold pixels, vals. simpl. rewrite P1, P2, P3, P4, D. repeat split.
Qed.

Lemma reconstruct_ext (xl yl : bool) (w w' : window) :
  pixels w = pixels w' -> vals w = vals w' -> data_points w = data_points w' ->
  reconstruct xl yl w = reconstruct xl yl w'.
Proof.
  unfold pixels, vals. simpl. intros P V D.
  injection P as P1 P2 P3 P4. injection V as V1 V2 V3 V4.
  unfold reconstruct. rewrite P1, P2, P3, P4, V1, V2, V3, V4, D. reflexivity.
Qed.

Lemma export_ext (xl yl : bool) (w w' : window) (path : string) :
  export_inputs w = export_inputs w' ->
  snd (export py_float float_str xl yl w path)
  = snd (export py_float float_str xl yl w' path).
Proof.
  intro H. destruct (read_values_ext w w' H) as [RS RF].
  destruct (export_inputs_fields w w' H) as (_ & _ & D & _).
  unfold export. rewrite <- D.
  destruct (data_points w); [reflexivity |].
  destruct (read_values py_float w) as [w1 o1].
  destruct (read_values py_float w') as [w1' o1']. simpl in RS, RF. subst o1'.
  destruct o1 as [o |]; [reflexivity |].
  destruct (RF eq_refl) as (P & V & D').
  rewrite (reconstruct_ext xl yl w1 w1' P V D').
  destruct (reconstruct xl yl w1'); [| reflexivity].
  destruct (is_empty path); reflexivity.
Qed.

Lemma missing_cal_ext (w w' : window) :
  export_inputs w = export_inputs w' ->
  missing_cal w = missing_cal w'
  /\ first_missing (items (calibration w)) = first_missing (items (calibration w')).
Proof.
  intro H. destruct (export_inputs_fields w w' H)
    as ((P1 & P2 & P3 & P4) & (N1 & N2 & N3 & N4) & _).
  unfold missing_cal. simpl. rewrite P1, P2, P3, P4.
  destruct (pixel (x_min (calibration w'))), (pixel (x_max (calibration w'))),
    (pixel (y_min (calibration w'))), (pixel (y_max (calibration w')));
    simpl; rewrite ?N1, ?N2, ?N3, ?N4; split; reflexivity.
Qed.

Lemma save_data_ext (w w' : window) (path : string) :
  export_inputs w = export_inputs w' ->
  snd (save_data_v2 py_float float_str w path)
  = snd (save_data_v2 py_float float_str w' path)
  /\ snd (save_data_v1 py_float float_str w path)
     = snd (save_data_v1 py_float float_str w' path).
Proof.
  intro H. destruct (missing_cal_ext w w' H) as [M F].
  destruct (export_inputs_fields w w' H) as (_ & _ & _ & _ & (S1 & S2) & (R1 & R2)).
  unfold save_data_v2, save_data_v1. rewrite <- M, <- F, <- S1, <- S2, <- R1, <- R2.
  split.
  - destruct (missing_cal w); [apply export_ext; exact H | reflexivity].
  - destruct (first_missing (items (calibration w)));
      [reflexivity | apply export_ext; exact H].
Qed.

Lemma read_values_inputs (w : window) :
  export_inputs (fst (read_values py_float w)) = export_inputs w.
Proof.
  unfold read_values.
  destruct (is_empty (in_xmin w) || is_empty (in_xmax w)
            || is_empty (in_ymin w) || is_empty (in_ymax w)); [reflexivity |].
  destruct (py_float (in_xmin w)); [| reflexivity]. simpl.
  destruct (py_float (in_xmax w)); [| reflexivity]. simpl.
  destruct (py_float (in_ymin w)); [| reflexivity]. simpl.
  destruct (py_float (in_ymax w)); reflexivity.
Qed.

Lemma export_keeps_inputs (xl yl : bool) (w : window) (path : string) :
  export_inputs (fst (export py_float float_str xl yl w path)) = export_inputs w.
Proof.
  unfold export. destruct (data_points w) eqn:D; [reflexivity |].
  pose proof (read_values_inputs w) as RI.
  destruct (read_values py_float w) as [w1 o]. simpl in RI.
  destruct o; [exact RI |].
  destruct (reconstruct xl yl w1); [| exact RI].
  destruct (is_empty path); exact RI.
Qed.

Lemma save_data_keeps_inputs (w : window) (path : string) :
  export_inputs (fst (save_data_v2 py_float float_str w path)) = export_inputs w
  /\ export_inputs (fst (save_data_v1 py_float float_str w path)) = export_inputs w.
Proof.
  unfold save_data_v2, save_data_v1. split.
  - destruct (missing_cal w); [apply export_keeps_inputs | reflexivity].
  - destruct (first_missing (items (calibration w)));
      [reflexivity | apply export_keeps_inputs].
Qed.

End ExportInputs.

(** X8. The outcome of [save_data] (the warning shown, the exception, or
    the file written) is a function of the four pixel locations, the
    anchor names, the traced points, the four value texts and the scale
    kinds.  The values stored by earlier exports, the image and the hint
    have no influence on it. *)
Theorem export_depends_on_inputs_only
    (py_float : string -> option R) (float_str : R -> string)
    (w w' : window) (path : string) :
  pixels w = pixels w' ->
  map (fun kd => name (snd kd)) (items (calibration w))
  = map (fun kd => name (snd kd)) (items (calibration w')) ->
  data_points w = data_points w' ->
  value_texts w = value_texts w' ->
  x_scale_type w = x_scale_type w' -> y_scale_type w = y_scale_type w' ->
  rad_x_log w = rad_x_log w' -> rad_y_log w = rad_y_log w' ->
  snd (save_data_v2 py_float float_str w path)
  = snd (save_data_v2 py_float float_str w' path)
  /\ snd (save_data_v1 py_float float_str w path)
     = snd (save_data_v1 py_float float_str w' path).
Proof.
  intros P N D T S1 S2 R1 R2. apply save_data_ext.
  unfold export_inputs. rewrite P, N, D, T, S1, S2, R1, R2. reflexivity.
Qed.

Lemma export_depends_on_inputs_only_witness :
  snd (save_data_v2 dec_float opaque_str w_linear "out.csv")
  = snd (save_data_v2 dec_float opaque_str
           (set_hint "Tracing paused." (set_img img3 (stored c_zero_span w_linear)))
           "out.csv").
Proof.
  destruct (export_depends_on_inputs_only dec_float opaque_str w_linear
              (set_hint "Tracing paused." (set_img img3 (stored c_zero_span w_linear)))
              "out.csv" eq_refl eq_refl eq_refl eq_refl eq_refl eq_refl eq_refl eq_refl)
    as [E _].
  exact E.
Defined.

(** X9. Exporting twice gives the same result: the window left by
    [save_data], whether it failed or wrote a file, answers a second
    [save_data] with the same path by the same warning, exception or file
    content. *)
Theorem export_is_repeatable
    (py_float : string -> option R) (float_str : R -> string)
    (w : window) (path : string) :
  snd (save_data_v2 py_float float_str
         (fst (save_data_v2 py_float float_str w path)) path)
  = snd (save_data_v2 py_float float_str w path)
  /\ snd (save_data_v1 py_float float_str
            (fst (save_data_v1 py_float float_str w path)) path)
     = snd (save_data_v1 py_float float_str w path).
Proof.
  destruct (save_data_keeps_inputs py_float float_str w path) as [K2 K1].
  split.
  - apply (save_data_ext py_float float_str _ _ path K2).
  - apply (save_data_ext py_float float_str _ _ path K1).
Qed.

(** X10. Loading an image resets nothing: after [load_image] the
    calibration and the traced points are those of before, and [save_data]
    ends as it would have ended without the new image; a cancelled file
    dialog (empty file name) changes nothing at all. *)
Theorem load_image_keeps_session
    (py_float : string -> option R) (float_str : R -> string)
    (g : gui) (filename : string) (decoded : image) (path : string) :
  calibration (win (load_image g filename decoded)) = calibration (win g)
  /\ data_points (win (load_image g filename decoded)) = data_points (win g)
  /\ current_state (load_image g filename decoded) = current_state g
  /\ snd (save_data_v2 py_float float_str (win (load_image g filename decoded)) path)
     = snd (save_data_v2 py_float float_str (win g) path)
  /\ snd (save_data_v1 py_float float_str (win (load_image g filename decoded)) path)
     = snd (save_data_v1 py_float float_str (win g) path)
  /\ (filename = EmptyString -> load_image g filename decoded = g)
  /\ (filename <> EmptyString -> img (win (load_image g filename decoded)) = Some decoded).
Proof.
  assert (I : export_inputs (win (load_image g filename decoded)) = export_inputs (win g))
    by (unfold load_image; destruct (is_empty filename); reflexivity).
  destruct (save_data_ext py_float float_str _ _ path I) as [E2 E1].
  unfold load_image in *.
  destruct filename as [| ch rest]; simpl in *.
  - repeat split; try assumption. intro N. contradiction N. reflexivity.
  - repeat split; try assumption. intro N. discriminate N.
Qed.

Lemma load_image_keeps_session_witness :
  load_image (g_of w_linear None false) EmptyString img3 = g_of w_linear None false
  /\ img (win (load_image (g_of w_linear None false) "plot.png" img3)) = Some img3.
Proof.
  destruct (load_image_keeps_session dec_float opaque_str (g_of w_linear None false)
              EmptyString img3 "out.csv") as (_ & _ & _ & _ & _ & H & _).
  split; [exact (H eq_refl) | reflexivity].
Defined.

(** ** How an export can end *)

Section Endings.

Variable py_float : string -> option R.
Variable float_str : R -> string.

Lemma export_cancelled (kx ky : scale) (w : window) (c : readings) (path : string) :
  calibrated py_float w c -> data_points w <> [] ->
  xp2 c <> xp1 c -> yp2 c <> yp1 c ->
  log_ok kx (xv1 c) (xv2 c) -> log_ok ky (yv1 c) (yv2 c) ->
  is_empty path = true ->
  export py_float float_str (is_log kx) (is_log ky) w path = (stored c w, Cancelled).
Proof.
  intros C D Hx Hy Lx Ly P. unfold export.
  destruct (data_points w) as [| pt pts] eqn:E; [contradiction |].
  rewrite (read_values_ok py_float w c C).
  rewrite (reconstruct_ok py_float kx ky w c C Hx Hy Lx Ly).
  rewrite P. reflexivity.
Qed.

Lemma export_reads (xl yl : bool) (w : window) (path : string) :
  (forall kd, In kd (items (calibration w)) -> pixel (snd kd) <> None) ->
  reported (snd (export py_float float_str xl yl w path)) = false ->
  exists c, calibrated py_float w c /\ data_points w <> [].
Proof.
  intros H E.
  assert (H1 := H _ (or_introl eq_refl)).
  assert (H2 := H _ (or_intror (or_introl eq_refl))).
  assert (H3 := H _ (or_intror (or_intror (or_introl eq_refl)))).
  assert (H4 := H _ (or_intror (or_intror (or_intror (or_introl eq_refl))))).
  simpl in H1, H2, H3, H4.
  destruct (pixel (x_min (calibration w))) as [p1 |] eqn:P1; [| contradiction].
  destruct (pixel (x_max (calibration w))) as [p2 |] eqn:P2; [| contradiction].
  destruct (pixel (y_min (calibration w))) as [p3 |] eqn:P3; [| contradiction].
  destruct (pixel (y_max (calibration w))) as [p4 |] eqn:P4; [| contradiction].
  assert (D : data_points w <> []).
  { intro D. unfold export in E. rewrite D in E. discriminate E. }
  assert (RV : exists w1, read_values py_float w = (w1, None)).
  { unfold export in E. destruct (data_points w); [contradiction |].
    destruct (read_values_state py_float w) as [_ S].
    destruct (read_values py_float w) as [w1 o]. simpl in S.
    destruct S as [S | [(S & _) | (S & _)]].
    - inversion S; subst. discriminate E.
    - subst o. discriminate E.
    - subst o. exists w1. reflexivity. }
  destruct RV as [w1 RV].
  destruct (read_values_none py_float w w1 RV)
    as [(N1 & N2 & N3 & N4) (v1 & v2 & v3 & v4 & V)].
  exists (mk_readings p1 v1 p2 v2 p3 v3 p4 v4). split; [| exact D].
  unfold calibrated. simpl. rewrite P1, P2, P3, P4.
  repeat split; try assumption; apply V.
Qed.

(** How [export] ends on a window whose calibration was read. *)
Lemma export_endings (xl yl : bool) (w : window) (c : readings) (path : string) :
  calibrated py_float w c -> data_points w <> [] ->
  let r := export py_float float_str xl yl w path in
  (r = (stored c w, Uncaught ValueError)
   /\ ((xl = true /\ (xv1 c <= 0 \/ xv2 c <= 0))
       \/ (yl = true /\ (yv1 c <= 0 \/ yv2 c <= 0))))
  \/ (r = (stored c w, Uncaught ZeroDivisionError)
      /\ (xp1 c = xp2 c \/ yp1 c = yp2 c))
  \/ (r = (stored c w, Cancelled) /\ is_empty path = true)
  \/ (exists csv, r = (set_hint ("Export successful: " ++ path)%string (stored c w),
                       Exported path csv)
                  /\ is_empty path = false).
Proof.
  intros C D r. unfold r. clear r.
  destruct (log_ok_dec xl (xv1 c) (xv2 c)) as [Lx | [Bx Nx]].
  2:{ left. subst xl. split; [| left; split; [reflexivity | exact Nx]].
      apply export_raise; try assumption.
      apply (reconstruct_x_domain py_float); assumption. }
  destruct (log_ok_dec yl (yv1 c) (yv2 c)) as [Ly | [By Ny]].
  2:{ left. subst yl. split; [| right; split; [reflexivity | exact Ny]].
      rewrite <- (is_log_kind xl).
      apply export_raise; try assumption.
      apply (reconstruct_y_domain py_float); assumption. }
  rewrite <- (is_log_kind xl), <- (is_log_kind yl).
  destruct (Req_dec_T (xp1 c) (xp2 c)) as [Zx | Zx].
  { right; left. split; [| left; exact Zx].
    apply export_raise; try assumption.
    apply (reconstruct_zero_span py_float); try assumption. left; exact Zx. }
  destruct (Req_dec_T (yp1 c) (yp2 c)) as [Zy | Zy].
  { right; left. split; [| right; exact Zy].
    apply export_raise; try assumption.
    apply (reconstruct_zero_span py_float); try assumption. right; exact Zy. }
  assert (Zx' : xp2 c <> xp1 c) by (intro X; apply Zx; symmetry; exact X).
  assert (Zy' : yp2 c <> yp1 c) by (intro X; apply Zy; symmetry; exact X).
  destruct (is_empty path) eqn:EP.
  - right; right; left. split; [| reflexivity].
    apply export_cancelled; assumption.
  - right; right; right. eexists. split; [| reflexivity].
    apply export_ok; assumption.
Qed.

Lemma save_data_not_reported (w : window) (path : string) :
  (reported (snd (save_data_v2 py_float float_str w path)) = false ->
   (forall kd, In kd (items (calibration w)) -> pixel (snd kd) <> None)
   /\ save_data_v2 py_float float_str w path
      = export py_float float_str (is_log (x_scale_type w)) (is_log (y_scale_type w))
               w path)
  /\ (reported (snd (save_data_v1 py_float float_str w path)) = false ->
      (forall kd, In kd (items (calibration w)) -> pixel (snd kd) <> None)
      /\ save_data_v1 py_float float_str w path
         = export py_float float_str (rad_x_log w) (rad_y_log w) w path).
Proof.
  split.
  - unfold save_data_v2. destruct (missing_cal w) eqn:M; [| intro H; discriminate H].
    intros _. split; [| reflexivity].
    intros kd I N.
    assert (X : In (name (snd kd)) (missing_cal w)).
    { apply missing_cal_spec. exists kd. repeat split; assumption. }
    rewrite M in X. exact X.
  - unfold save_data_v1.
    destruct (first_missing (items (calibration w))) eqn:M; [intro H; discriminate H |].
    intros _. split; [| reflexivity].
    intros kd I N.
    apply (first_missing_some (items (calibration w))); [| exact M].
    exists kd. split; assumption.
Qed.

End Endings.

(** X12. A cancelled file dialog writes nothing.  With the empty path
    [save_data] never writes a file, whatever the window is; on a complete
    calibration inside the domain of the transform it ends silently: the
    four values are stored, the hint is kept and nothing else happens. *)
Theorem cancelled_dialog_writes_nothing
    (py_float : string -> option R) (float_str : R -> string)
    (kx ky : scale) (w : window) (c : readings) :
  (forall p csv,
      snd (save_data_v2 py_float float_str w EmptyString) <> Exported p csv
      /\ snd (save_data_v1 py_float float_str w EmptyString) <> Exported p csv)
  /\ (calibrated py_float w c -> scales w kx ky -> data_points w <> [] ->
      xp1 c <> xp2 c -> yp1 c <> yp2 c ->
      log_ok kx (xv1 c) (xv2 c) -> log_ok ky (yv1 c) (yv2 c) ->
      save_data_v2 py_float float_str w EmptyString = (stored c w, Cancelled)
      /\ save_data_v1 py_float float_str w EmptyString = (stored c w, Cancelled)
      /\ lbl_hint (stored c w) = lbl_hint w).
Proof.
  assert (G : forall xl yl p csv,
             (forall kd, In kd (items (calibration w)) -> pixel (snd kd) <> None) ->
             snd (export py_float float_str xl yl w EmptyString) <> Exported p csv).
  { intros xl yl p csv P U.
    destruct (export_reads py_float float_str xl yl w EmptyString P) as (c' & C & D).
    { rewrite U. reflexivity. }
    destruct (export_endings py_float float_str xl yl w c' EmptyString C D)
      as [(E & _) | [(E & _) | [(E & _) | (x & _ & E)]]];
      try (rewrite E in U; discriminate U).
    discriminate E. }
  split.
  - intros p csv. split; intro U.
    + destruct (save_data_not_reported py_float float_str w EmptyString) as [N _].
      destruct N as [P E]; [rewrite U; reflexivity |].
      rewrite E in U. exact (G _ _ p csv P U).
    + destruct (save_data_not_reported py_float float_str w EmptyString) as [_ N].
      destruct N as [P E]; [rewrite U; reflexivity |].
      rewrite E in U. exact (G _ _ p csv P U).
  - intros C ((S1 & S2) & (S3 & S4)) D Hx Hy Lx Ly.
    assert (Hx' : xp2 c <> xp1 c) by (intro X; apply Hx; symmetry; exact X).
    assert (Hy' : yp2 c <> yp1 c) by (intro X; apply Hy; symmetry; exact X).
    split; [| split; [| reflexivity]].
    + unfold save_data_v2. rewrite (missing_cal_nil py_float w c C), S1, S2.
      apply export_cancelled; try assumption. reflexivity.
    + unfold save_data_v1. rewrite (first_missing_none py_float w c C), S3, S4.
      apply export_cancelled; try assumption. reflexivity.
Qed.

Lemma cancelled_dialog_writes_nothing_witness :
  (calibrated dec_float w_linear c_linear /\ scales w_linear linear linear)
  /\ save_data_v2 dec_float opaque_str w_linear EmptyString
     = (stored c_linear w_linear, Cancelled).
Proof.
  split; [split; [exact w_linear_calibrated | exact w_linear_scales] |].
  destruct (cancelled_dialog_writes_nothing dec_float opaque_str linear linear
              w_linear c_linear) as [_ H].
  assert (D : data_points w_linear <> []) by (simpl; discriminate).
  assert (Hx : xp1 c_linear <> xp2 c_linear) by (simpl; lra).
  assert (Hy : yp1 c_linear <> yp2 c_linear) by (simpl; lra).
  destruct (H w_linear_calibrated w_linear_scales D Hx Hy
              (log_ok_linear _ _) (log_ok_linear _ _)) as [E _].
  exact E.
Defined.

(** X13. An export right after "Clear Traces" always ends with a warning:
    the one about the missing pixel locations or "No trace data points
    found."; nothing is written and the window is left as the clearing
    left it. *)
Theorem export_after_clear_warns
    (py_float : string -> option R) (float_str : R -> string)
    (g : gui) (path : string) :
  data_points (win (clear_points g)) = []
  /\ calibration (win (clear_points g)) = calibration (win g)
  /\ reported (snd (save_data_v2 py_float float_str (win (clear_points g)) path)) = true
  /\ reported (snd (save_data_v1 py_float float_str (win (clear_points g)) path)) = true
  /\ fst (save_data_v2 py_float float_str (win (clear_points g)) path)
     = win (clear_points g)
  /\ fst (save_data_v1 py_float float_str (win (clear_points g)) path)
     = win (clear_points g)
  /\ (forall event, current_state g = Some "picking_points"%string ->
                    button event = 3%nat ->
                    on_canvas_click (clear_points g) event = clear_points g).
Proof.
  split; [reflexivity | split; [reflexivity |]].
  unfold save_data_v2, save_data_v1, export.
  destruct (missing_cal (win (clear_points g)));
    destruct (first_missing (items (calibration (win (clear_points g)))));
    simpl; repeat (split; [reflexivity |]);
    intros event S B; unfold on_canvas_click; simpl; rewrite S, B;
    destruct (negb (inaxes event)); reflexivity.
Qed.

(** ** The two files side by side *)

Lemma scale_handlers_sync (g : gui) :
  rad_x_lin g = negb (rad_x_log (win g)) ->
  rad_y_lin g = negb (rad_y_log (win g)) ->
  let w' := win (set_y_scale_type (set_x_scale_type g)) in
  is_log (x_scale_type w') = rad_x_log w'
  /\ is_log (y_scale_type w') = rad_y_log w'
  /\ export_inputs w'
     = (pixels (win g), map (fun kd => name (snd kd)) (items (calibration (win g))),
        data_points (win g), value_texts (win g),
        (kind (rad_x_log (win g)), kind (rad_y_log (win g))),
        (rad_x_log (win g), rad_y_log (win g))).
Proof.
  intros X Y. unfold set_y_scale_type, set_x_scale_type.
  destruct g as [w s bp xl yl l1 l2 l3 l4 cu]. simpl in *. subst xl yl.
  destruct (rad_x_log w) eqn:RX, (rad_y_log w) eqn:RY; simpl;
    rewrite ?RX, ?RY; simpl; rewrite ?RX, ?RY;
    (split; [reflexivity | split; [reflexivity |]]);
    unfold export_inputs; simpl; rewrite ?RX, ?RY; reflexivity.
Qed.

Lemma scale_handlers_keep_calibration (g : gui) :
  calibration (win (set_y_scale_type (set_x_scale_type g))) = calibration (win g).
Proof.
  unfold set_y_scale_type.
  destruct (rad_y_lin (set_x_scale_type g));
    [| destruct (rad_y_log (win (set_x_scale_type g)))]; simpl;
    unfold set_x_scale_type;
    (destruct (rad_x_lin g); [reflexivity |]);
    destruct (rad_x_log (win g)); reflexivity.
Qed.

(** X14. The two files export alike.  Once the scale handlers of
    [UOP_CarbonTrace_v2.py] have run on radio groups with exactly one button
    checked, the scale attributes mirror the radio buttons, and on every
    window with the four pixel locations set [save_data] of
    [UOP_CarbonTrace_v2.py] and [save_data] of [UOP_CarbonTrace.py] return
    the same window and the same outcome. *)
Theorem both_files_export_alike
    (py_float : string -> option R) (float_str : R -> string)
    (g : gui) (path : string) :
  rad_x_lin g = negb (rad_x_log (win g)) ->
  rad_y_lin g = negb (rad_y_log (win g)) ->
  (forall kd, In kd (items (calibration (win g))) -> pixel (snd kd) <> None) ->
  let w' := win (set_y_scale_type (set_x_scale_type g)) in
  x_scale_type w' = kind (rad_x_log (win g))
  /\ y_scale_type w' = kind (rad_y_log (win g))
  /\ save_data_v2 py_float float_str w' path = save_data_v1 py_float float_str w' path.
Proof.
  intros X Y P w'.
  destruct (scale_handlers_sync g X Y) as (SX & SY & I). fold w' in SX, SY, I.
  assert (C : calibration w' = calibration (win g))
    by apply scale_handlers_keep_calibration.
  assert (K : x_scale_type w' = kind (rad_x_log (win g))
              /\ y_scale_type w' = kind (rad_y_log (win g))).
  { unfold export_inputs in I. injection I as _ _ _ _ K1 K2 _ _. split; assumption. }
  destruct K as [K1 K2]. split; [exact K1 | split; [exact K2 |]].
  assert (P' : forall kd, In kd (items (calibration w')) -> pixel (snd kd) <> None)
    by (rewrite C; exact P).
  destruct (all_pixels_set w' P') as [M F].
  unfold save_data_v2, save_data_v1. rewrite M, F, SX, SY. reflexivity.
Qed.

Lemma both_files_export_alike_witness :
  (rad_x_lin (g_of w_log None false) = negb (rad_x_log (win (g_of w_log None false))))
  /\ save_data_v2 dec_float opaque_str
       (win (set_y_scale_type (set_x_scale_type (g_of w_log None false)))) "out.csv"
     = save_data_v1 dec_float opaque_str
         (win (set_y_scale_type (set_x_scale_type (g_of w_log None false)))) "out.csv".
Proof.
  split; [reflexivity |].
  destruct (both_files_export_alike dec_float opaque_str (g_of w_log None false)
              "out.csv" eq_refl eq_refl) as (_ & _ & E).
  - intros kd [E | [E | [E | [E | []]]]]; subst kd; simpl; discriminate.
  - exact E.
Defined.

(** * More on the colour extraction *)

Section AutoTrace.

Variable py_int : string -> option Z.
Variable py_float : string -> option R.


End AutoTrace.


(** X16. Only the first three channels count: two images whose pixels
    agree on their first three channels (one with an alpha channel, the
    other without, say) give the same matches and the same candidate
    points. *)
Theorem alpha_channel_ignored (f : list R -> list R) (im : image)
    (r g b : Z) (tol : R) (target : list R) :
  (forall px, firstn 3 (f px) = firstn 3 px) ->
  match_mask (map (map f) im) target tol = match_mask im target tol
  /\ new_points (map (map f) im) r g b tol = new_points im r g b tol.
Proof.
  intro H.
  assert (M : forall t, match_mask (map (map f) im) t tol = match_mask im t tol).
  { intro t. unfold match_mask. rewrite map_map. apply map_ext. intro row.
    rewrite map_map. apply map_ext. intro px. rewrite H. reflexivity. }
  split; [apply M |]. unfold new_points. rewrite M. reflexivity.
Qed.

Lemma alpha_channel_ignored_witness :
  (forall px : list R, firstn 3 (firstn 3 px) = firstn 3 px)
  /\ new_points (map (map (firstn 3)) img3) 0 0 0 (10 / 100)
     = new_points img3 0 0 0 (10 / 100).
Proof.
  assert (H : forall px : list R, firstn 3 (firstn 3 px) = firstn 3 px).
  { intro px. rewrite firstn_firstn. reflexivity. }
  split; [exact H |].
  destruct (alpha_channel_ignored (firstn 3) img3 0 0 0 (10 / 100) [] H) as [_ E].
  exact E.
Defined.

Lemma collapse_columns_fst (mask : list (list bool)) :
  map fst (collapse mask) = map INR (np_unique (map snd (np_where mask))).
Proof. rewrite collapse_columns, map_map. reflexivity. Qed.

Lemma In_INR (c : nat) (l : list nat) : In (INR c) (map INR l) <-> In c l.
Proof.
  rewrite in_map_iff. split.
  - intros (d & E & I). apply INR_eq in E. subst d. exact I.
  - intro I. exists c. split; [reflexivity | exact I].
Qed.

(** X17. A larger tolerance never loses a match: every pixel matched
    under a tolerance is matched under every larger one, and every column
    with a candidate point keeps one. *)
Theorem tolerance_is_monotone (im : image) (r g b : Z) (tol tol' : R) :
  tol <= tol' ->
  let target := [IZR r / 255; IZR g / 255; IZR b / 255] in
  (forall y x, mask_at (match_mask im target tol) y x = true ->
               mask_at (match_mask im target tol') y x = true)
  /\ (forall c, In (INR c) (map fst (new_points im r g b tol)) ->
                In (INR c) (map fst (new_points im r g b tol')))
  /\ (length (new_points im r g b tol) <= length (new_points im r g b tol'))%nat.
Proof.
  intros L target.
  assert (M : forall y x, mask_at (match_mask im target tol) y x = true ->
                          mask_at (match_mask im target tol') y x = true).
  { intros y x H. apply mask_at_match in H. apply mask_at_match.
    destruct H as (row & px & Ey & Ex & D). exists row, px.
    split; [exact Ey | split; [exact Ex | lra]]. }
  assert (C : forall c, In c (np_unique (map snd (np_where (match_mask im target tol)))) ->
                        In c (np_unique (map snd (np_where (match_mask im target tol'))))).
  { intros c H. apply column_matched in H. apply column_matched.
    destruct H as [y H]. exists y. apply M. exact H. }
  split; [exact M | split].
  - intros c H. unfold new_points in *. fold target in H |- *.
    rewrite collapse_columns_fst in *. apply In_INR. apply In_INR in H.
    apply C. exact H.
  - unfold new_points. fold target. rewrite !collapse_columns, !length_map.
    apply NoDup_incl_length; [| exact C].
    assert (S := np_unique_sorted (map snd (np_where (match_mask im target tol)))).
    apply StronglySorted_Sorted in S.
    apply (Sorted_StronglySorted Nat.lt_trans) in S.
    clear C. induction S as [| a l S IH F]; constructor.
    + intro I. rewrite Forall_forall in F. specialize (F a I). lia.
    + exact IH.
Qed.

Lemma tolerance_is_monotone_witness :
  (0 : R) <= 10 / 100
  /\ (length (new_points img3 0 0 0 0) <= length (new_points img3 0 0 0 (10 / 100)))%nat.
Proof.
  assert (L : (0 : R) <= 10 / 100) by lra.
  split; [exact L |].
  destruct (tolerance_is_monotone img3 0 0 0 0 (10 / 100) L) as (_ & _ & H).
  exact H.
Defined.

Lemma sum_nat_bounds (l : list nat) (m : nat) :
  Forall (fun y => (y <= m)%nat) l ->
  0 <= sum_nat l <= INR m * INR (length l).
Proof.
  induction 1 as [| y l Hy F IH].
  - simpl. lra.
  - destruct IH as [IH0 IH1].
    pose proof (pos_INR y) as Py. apply le_INR in Hy.
    change (sum_nat (y :: l)) with (INR y + sum_nat l).
    change (length (y :: l)) with (S (length l)). rewrite S_INR.
    split; [lra | nra].
Qed.

Lemma np_mean_bounds (l : list nat) (m : nat) :
  l <> [] -> Forall (fun y => (y <= m)%nat) l -> 0 <= np_mean l <= INR m.
Proof.
  intros N F. unfold np_mean.
  destruct (sum_nat_bounds l m F) as [S0 S1].
  assert (P : 0 < INR (length l)).
  { apply lt_0_INR. destruct l; [contradiction | simpl; lia]. }
  split.
  - apply Rmult_le_pos; [exact S0 | left; apply Rinv_0_lt_compat; exact P].
  - apply (Rmult_le_reg_r (INR (length l))); [exact P |].
    unfold Rdiv. rewrite Rmult_assoc, Rinv_l by lra. lra.
Qed.

(** X18. The candidate points lie inside the image: the first coordinate
    of a candidate is the index of a column of some row of the image, and
    its second coordinate lies between 0 and the index of the last row. *)
Theorem candidates_inside_image (im : image) (r g b : Z) (tol : R) (x y : R) :
  In (x, y) (new_points im r g b tol) ->
  (exists c row, x = INR c /\ In row im /\ (c < length row)%nat)
  /\ 0 <= y <= INR (length im - 1).
Proof.
  unfold new_points.
  set (mask := match_mask im [IZR r / 255; IZR g / 255; IZR b / 255] tol).
  rewrite collapse_columns. intro H. apply in_map_iff in H.
  destruct H as (c & E & I). injection E as Ex Ey. subst x y.
  apply column_matched in I. destruct I as [yy M].
  assert (N : rows_in_column mask c <> [])
    by (apply rows_in_column_nil; exists yy; exact M).
  split.
  - unfold mask in M. apply mask_at_match in M.
    destruct M as (row & px & Er & Ep & _). exists c, row.
    split; [reflexivity | split].
    + apply nth_error_In in Er. exact Er.
    + apply nth_error_Some. rewrite Ep. discriminate.
  - apply np_mean_bounds; [exact N |].
    apply Forall_forall. intros y0 Hy. unfold rows_in_column in Hy.
    apply filter_In in Hy. destruct Hy as [Hy _]. apply in_seq in Hy.
    unfold mask, match_mask in Hy. rewrite length_map in Hy. lia.
Qed.

Lemma candidates_inside_image_witness :
  In (0, 1) (new_points img3 0 0 0 (10 / 100))
  /\ 0 <= 1 <= INR (length img3 - 1).
Proof.
  assert (I : In (0, 1) (new_points img3 0 0 0 (10 / 100))).
  { unfold new_points. rewrite img3_mask by lra. rewrite img3_points.
    left. reflexivity. }
  split; [exact I |].
  destruct (candidates_inside_image img3 0 0 0 (10 / 100) 0 1 I) as [_ B].
  exact B.
Defined.
